(** * uapdb/app.py: feature pipeline and filter handler of the UAP dashboard

    A shallow embedding of [src/uapdb/app.py]: the start-up script that loads
    [updb.csv], derives the per-row features and keyword flags (lines 14-33),
    and the Dash callback [update_charts] (lines 69-88) that filters the
    enriched table and builds four chart specifications.

    Conventions of the model
    - float64 cells are Rocq's primitive binary64 floats; a missing numeric
      cell is NaN, as in pandas;
    - text is [string], read as a sequence of code points below 256
      (Latin-1); [str.isspace], [str.lower] and the regular expression
      class [\w] are Python's on that range; an int64 column of years is
      read through its float64 values;
    - a Series is an association list from index labels to values, a
      DataFrame an association list from index labels to rows, both in row
      order;
    - the functions of numpy, pandas and TextBlob whose results depend on
      code outside the repository (the sentiment model, [np.log], the number
      parser of [pd.to_numeric], numpy's summation) are fields of the
      class [Libs]. *)

From Stdlib Require Import String Ascii List Bool Arith ZArith Lia.
From Stdlib Require Import Sorted.
From Stdlib Require Import Floats.
Import ListNotations.

Local Open Scope string_scope.
Local Open Scope list_scope.
Local Open Scope nat_scope.

(* ------------------------------------------------------------------ *)
(** ** Text *)

Module Text.

Definition code (c : ascii) : nat := nat_of_ascii c.

Definition in_range (lo hi : nat) (c : ascii) : bool :=
  (lo <=? code c) && (code c <=? hi).

(** [str.isspace] on one character: TAB..CR, FS..US, the space, NEL and
    the no-break space. *)
Definition is_space (c : ascii) : bool :=
  in_range 9 13 c || in_range 28 32 c || (code c =? 133) || (code c =? 160).

(** The class [\w] of Python's [re] on text: the underscore and what
    [str.isalnum] accepts, that is the digits and letters of ASCII, the
    letters of Latin-1 (ordinal indicators, micro sign, U+00C0..U+00FF but
    the multiplication and division signs), its superscript digits and
    its fractions. *)
Definition is_word (c : ascii) : bool :=
  in_range 48 57 c || in_range 65 90 c || in_range 97 122 c
  || (code c =? 95)
  || (code c =? 170) || in_range 178 179 c || (code c =? 181)
  || in_range 185 186 c || in_range 188 190 c
  || in_range 192 214 c || in_range 216 246 c || in_range 248 255 c.

(** [str.lower] on one character: the capital letters of ASCII and of
    Latin-1 have their small letter 32 places further. *)
Definition lower_char (c : ascii) : ascii :=
  if in_range 65 90 c || in_range 192 214 c || in_range 216 222 c
  then ascii_of_nat (code c + 32)
  else c.

Definition chars (s : string) : list ascii := list_ascii_of_string s.
Definition str (l : list ascii) : string := string_of_list_ascii l.

(** [s.lower()] *)
Definition lower (s : string) : string := str (map lower_char (chars s)).

(** Closing the run of characters read so far, kept when it has at
    least [n] characters. *)
Definition flush (n : nat) (run : list ascii) : list (list ascii) :=
  if n <=? length run then [run] else [].

(** One left-to-right pass cutting a text into its maximal runs of
    characters satisfying [keep], runs shorter than [n] being dropped.
    [run] is the run being read. *)
Fixpoint runs (keep : ascii -> bool) (n : nat) (run : list ascii)
         (s : list ascii) : list (list ascii) :=
  match s with
  | [] => flush n run
  | c :: s' =>
      if keep c then runs keep n (run ++ [c]) s'
      else flush n run ++ runs keep n [] s'
  end.

(** [s.split()]: the maximal runs of non-space characters. *)
Definition split (s : string) : list string :=
  map str (runs (fun c => negb (is_space c)) 1 [] (chars s)).

(** [re.compile(r"(?u)\b\w\w+\b").findall(s)], the default tokenizer of
    scikit-learn's CountVectorizer: the maximal runs of word characters
    that have two characters or more. *)
Definition findall_tokens (s : string) : list string :=
  map str (runs is_word 2 [] (chars s)).

(** [s[:n]] *)
Definition prefix (n : nat) (s : string) : string := substring 0 n s.

(** [needle in haystack] *)
Fixpoint starts_with (p s : list ascii) : bool :=
  match p, s with
  | [], _ => true
  | _ :: _, [] => false
  | a :: p', b :: s' => Ascii.eqb a b && starts_with p' s'
  end.

Fixpoint contains_chars (p s : list ascii) : bool :=
  starts_with p s
  || match s with
     | [] => false
     | _ :: s' => contains_chars p s'
     end.

Definition contains (needle haystack : string) : bool :=
  contains_chars (chars needle) (chars haystack).

(** Case-insensitive substring presence, the reading the specification
    gives of a keyword flag. *)
Definition contains_nocase (needle haystack : string) : bool :=
  contains (lower needle) (lower haystack).

(** [w] occurs in [s] as a whole word: as a substring that starts at the
    beginning of [s] or after a character outside [\w], and stops at the
    end of [s] or before a character outside [\w]. *)
Definition starts_outside (keep : ascii -> bool) (post : list ascii) : Prop :=
  match post with
  | [] => True
  | c :: _ => keep c = false
  end.

Definition ends_outside (keep : ascii -> bool) (pre : list ascii) : Prop :=
  pre = [] \/ exists p c, pre = p ++ [c] /\ keep c = false.

Definition whole_word (w s : string) : Prop :=
  exists pre post,
    chars s = pre ++ chars w ++ post
    /\ ends_outside is_word pre /\ starts_outside is_word post.

(** [w] occurs in [s] as a substring. *)
Definition substring_of (w s : string) : Prop :=
  exists pre post, chars s = pre ++ chars w ++ post.

(** The number of words of a text, counted as the positions where a
    non-space character starts the text or follows a space. *)
Fixpoint word_starts (after_space : bool) (s : list ascii) : nat :=
  match s with
  | [] => 0
  | c :: s' =>
      if is_space c then word_starts true s'
      else (if after_space then 1 else 0) + word_starts false s'
  end.

Definition word_count (s : string) : nat := word_starts true (chars s).

End Text.

(* ------------------------------------------------------------------ *)
(** ** Numbers, Series and DataFrames *)

(** An int64 value read as a float64, as numpy does before [np.log]; the
    values converted are counts, between 0 and 2^63. *)
Definition float_of_int (z : Z) : float := PrimFloat.of_uint63 (Uint63.of_Z z).

(** The libraries the script calls into, as far as their results are not
    fixed by the script itself. *)
Class Libs := {
  (** [TextBlob(x).sentiment]: the pair (polarity, subjectivity) *)
  TextBlob_sentiment : string -> float * float;
  (** [np.log] on one float64 *)
  np_log : float -> float;
  (** the number parser behind [pd.to_numeric]; [None] when the text is
      not a number *)
  str_to_float : string -> option float;
  (** numpy's sum of a float64 array *)
  np_sum : list float -> float
}.

Definition label := nat.
Definition Series (A : Type) := list (label * A).
Definition DataFrame (R : Type) := list (label * R).

Section Frames.
Context {A B : Type}.

Definition index (s : list (label * A)) : list label := map fst s.
Definition values (s : list (label * A)) : list A := map snd s.

(** [pd.RangeIndex] put on a list of rows *)
Definition with_range_index (l : list A) : list (label * A) :=
  combine (seq 0 (length l)) l.

(** A column of a frame, or a Series mapped elementwise. *)
Definition apply (f : A -> B) (s : list (label * A)) : list (label * B) :=
  map (fun p => (fst p, f (snd p))) s.

(** Selection by a boolean mask computed from each row. *)
Definition mask (p : A -> bool) (s : list (label * A)) : list (label * A) :=
  filter (fun q => p (snd q)) s.

Fixpoint loc (i : label) (s : list (label * A)) : option A :=
  match s with
  | [] => None
  | (j, v) :: s' => if Nat.eqb i j then Some v else loc i s'
  end.

(** [df.reset_index(drop=True)] *)
Definition reset_index (s : list (label * A)) : list (label * A) :=
  with_range_index (values s).
End Frames.

(** A cell of a column whose values pandas could not all read as numbers
    holds text; a numeric cell holds a float64, NaN when missing. *)
Inductive cell :=
| Num (x : float)
| Str (s : string).

Definition isna (c : cell) : bool :=
  match c with
  | Num x => PrimFloat.is_nan x
  | Str _ => false
  end.

(** One line of [updb.csv] as [pd.read_csv] returns it; [None] is a
    missing text cell. *)
Record csv_row := {
  csv_latitude : float;
  csv_longitude : float;
  csv_country : option string;
  csv_city : option string;
  csv_Year : cell;
  csv_description : option string
}.

(** A row that passed [dropna(subset=[...])] of line 14: the five required
    columns are present. *)
Record kept_row := {
  k_latitude : float;
  k_longitude : float;
  k_country : string;
  k_city : option string;
  k_Year : cell;
  k_description : string
}.

(** A row of [df] after line 25. *)
Record obs := {
  latitude : float;
  longitude : float;
  country : string;
  city : option string;
  Year : float;
  description : string;
  sentiment : float;
  subjectivity : float;
  mentions : Z;
  impact : float;
  veracity : float;
  image_score : float;
  Analysis_Category : string;
  short_description : string
}.

(** A row of [final_df]: the columns of [df] and the keyword columns,
    the latter by column name. *)
Record row := {
  features :> obs;
  kw_columns : list (string * Z)
}.

(** line 28 *)
Definition keywords : list string :=
  ["craft"; "alien"; "ufo"; "object"; "disk"; "orb"; "triangle"; "hover";
   "saucer"; "cigar"; "sphere"; "entity"].

(** ** CountVectorizer(vocabulary=keywords, binary=True) *)

Module CountVectorizer.

(** [build_analyzer]: lower-casing (the default [lowercase=True]), then
    the default token pattern; unigrams, no stop words. *)
Definition analyze (doc : string) : list string :=
  Text.findall_tokens (Text.lower doc).

Definition count (t : string) (tokens : list string) : Z :=
  Z.of_nat (count_occ string_dec tokens t).

(** One row of the term-count matrix, in the order of the vocabulary. *)
Definition count_vocab (vocabulary : list string) (doc : string) : list Z :=
  map (fun t => count t (analyze doc)) vocabulary.

(** [binary=True]: every non-zero count is set to 1. *)
Definition binarize (c : Z) : Z := if Z.eqb c 0 then 0%Z else 1%Z.

Definition fit_transform (vocabulary : list string) (docs : list string)
  : list (list Z) :=
  map (fun doc => map binarize (count_vocab vocabulary doc)) docs.

End CountVectorizer.

(* ------------------------------------------------------------------ *)
(** ** The feature pipeline (lines 14-33) *)

Section Pipeline.
Context {L : Libs}.

(** [dropna(subset=['latitude','longitude','country','Year','description'])]
    on one row: the row is kept when none of the five cells is missing. *)
Definition keep (r : csv_row) : option kept_row :=
  match csv_country r, csv_description r with
  | Some c, Some d =>
      if PrimFloat.is_nan (csv_latitude r)
         || PrimFloat.is_nan (csv_longitude r)
         || isna (csv_Year r)
      then None
      else Some {| k_latitude := csv_latitude r;
                   k_longitude := csv_longitude r;
                   k_country := c;
                   k_city := csv_city r;
                   k_Year := csv_Year r;
                   k_description := d |}
  | _, _ => None
  end.

Fixpoint dropna_subset (df : DataFrame csv_row) : DataFrame kept_row :=
  match df with
  | [] => []
  | (i, r) :: df' =>
      match keep r with
      | Some k => (i, k) :: dropna_subset df'
      | None => dropna_subset df'
      end
  end.

(** line 14; the rows that stay keep the labels [read_csv] gave them. *)
Definition load (csv : list csv_row) : DataFrame kept_row :=
  dropna_subset (with_range_index csv).

(** [pd.to_numeric(_, errors='coerce')] on one cell *)
Definition to_numeric (c : cell) : float :=
  match c with
  | Num x => x
  | Str s =>
      match str_to_float s with
      | Some x => x
      | None => PrimFloat.nan
      end
  end.

(** [Series.dropna()] *)
Definition dropna (s : Series float) : Series float :=
  mask (fun x => negb (PrimFloat.is_nan x)) s.

(** [df[col] = s] for a float column: the Series is aligned on the
    labels of the frame, and a label it lacks gets NaN. *)
Definition setitem_aligned (idx : list label) (s : Series float)
  : Series float :=
  map (fun i => (i, match loc i s with
                    | Some x => x
                    | None => PrimFloat.nan
                    end)) idx.

(** line 15: the column [Year] of [df] after the assignment *)
Definition Year_column (df : DataFrame kept_row) : Series float :=
  setitem_aligned (index df) (dropna (apply (fun r => to_numeric (k_Year r)) df)).

(** [astype(str)] on a text cell. The model takes [description] as a
    column pandas read as text, each cell a string or missing; a column
    read as numbers, whose cells [astype(str)] would print, is outside
    it. *)
Definition astype_str (s : string) : string := s.

(** line 24, [np.where(subjectivity < 0.5, 'Scientific', 'Emotional')] *)
Definition categorize (subj : float) : string :=
  if (subj <? 0.5)%float then "Scientific" else "Emotional".

(** lines 16-25 on one row, [year] being its cell of the column [Year]
    set on line 15. The columns are Series over the labels of [df], so
    each assignment is row by row. *)
Definition derive (r : kept_row) (year : float) : obs :=
  let description := astype_str (k_description r) in             (* 16 *)
  let tb := TextBlob_sentiment description in                    (* 19 *)
  let sentiment := fst tb in
  let subjectivity := snd tb in
  let mentions := Z.of_nat (length (Text.split description)) in  (* 20 *)
  let impact := np_log (float_of_int (mentions + 1)) in          (* 21 *)
  let veracity :=
    (np_log (float_of_int (mentions + 1)) * PrimFloat.abs sentiment)%float
  in                                                             (* 22 *)
  let image_score :=
    ((PrimFloat.abs sentiment + subjectivity) * veracity)%float in  (* 23 *)
  {| latitude := k_latitude r;
     longitude := k_longitude r;
     country := k_country r;
     city := k_city r;
     Year := year;
     description := description;
     sentiment := sentiment;
     subjectivity := subjectivity;
     mentions := mentions;
     impact := impact;
     veracity := veracity;
     image_score := image_score;
     Analysis_Category := categorize subjectivity;               (* 24 *)
     short_description :=
       (Text.prefix 100 description ++ "...")%string |}.         (* 25 *)

(** [df] after line 25 *)
Definition df_features (csv : list csv_row) : DataFrame obs :=
  let df := load csv in
  map (fun p => (fst (fst p), derive (snd (fst p)) (snd (snd p))))
      (combine df (Year_column df)).

(** line 30: the names of the keyword columns *)
Definition kw_names : list string :=
  map (fun kw => ("kw_" ++ kw)%string) keywords.

(** line 30: one row of [keywords_df] per row of [df], in order, under
    a fresh RangeIndex *)
Definition keywords_df (df : DataFrame obs) : DataFrame (list (string * Z)) :=
  with_range_index
    (map (combine kw_names)
         (CountVectorizer.fit_transform keywords
            (map (fun r => Text.lower (description r)) (values df)))).

(** The keyword cells of the row whose description is [d], as line 30
    computes them: the column names paired with the binary counts of the
    lower-cased description. *)
Definition keyword_row (d : string) : list (string * Z) :=
  combine kw_names
    (map CountVectorizer.binarize
       (CountVectorizer.count_vocab keywords (Text.lower d))).

(** line 33, [pd.concat([df.reset_index(drop=True), keywords_df], axis=1)]:
    both frames carry the labels 0..n-1, so the join on labels puts row
    [i] of one next to row [i] of the other. *)
Definition concat_columns (a : DataFrame obs)
           (b : DataFrame (list (string * Z))) : DataFrame row :=
  map (fun p => (fst (fst p),
                 {| features := snd (fst p); kw_columns := snd (snd p) |}))
      (combine a b).

(** lines 14-33: the enriched table [final_df] *)
Definition pipeline (csv : list csv_row) : DataFrame row :=
  let df := df_features csv in
  concat_columns (reset_index df) (keywords_df df).

(** The row of [final_df] a kept row ends as: a closed form of the
    pipeline, proved equal to it in [pipeline_eq]. *)
Definition enrich (k : kept_row) : row :=
  {| features := derive k (to_numeric (k_Year k));
     kw_columns := keyword_row (k_description k) |}.

(** [Series.min()] and [Series.max()], which skip NaN and give NaN when
    nothing is left *)
Definition pick (better : float -> float -> bool) (m x : float) : float :=
  if PrimFloat.is_nan x then m
  else if PrimFloat.is_nan m then x
  else if better x m then x else m.

Definition series_min (l : list float) : float :=
  fold_left (pick PrimFloat.ltb) l PrimFloat.nan.

Definition series_max (l : list float) : float :=
  fold_left (pick (fun x m => PrimFloat.ltb m x)) l PrimFloat.nan.

(** Start-up, as far as the two bounds of the year slider go:
    [int(final_df['Year'].min())] and [int(final_df['Year'].max())]
    (lines 42 and 44) raise on NaN and on an infinity, and the process
    does not start. [None] says that the process has not started, not
    where it stopped: on a frame without a row line 19 raises before
    (and the model gives [None] as well). [Some] says no more than that
    these two conversions pass: what else can stop the layout, such as the
    marks of line 43 over a range of years too long to hold in memory, is
    not modelled, so [startup] serves for what a started process has, not
    for saying that a process starts. *)
Definition startup (csv : list csv_row) : option (DataFrame row) :=
  let final_df := pipeline csv in
  let years := map (fun r : row => Year r) (values final_df) in
  if PrimFloat.is_finite (series_min years)
     && PrimFloat.is_finite (series_max years)
  then Some final_df
  else None.

(** The cell of a keyword column in a row of [final_df]. *)
Definition kw_flag (r : row) (col : string) : option Z :=
  match find (fun p => String.eqb (fst p) col) (kw_columns r) with
  | Some p => Some (snd p)
  | None => None
  end.

End Pipeline.

(* ------------------------------------------------------------------ *)
(** ** The filter handler (lines 69-88) *)

(** The module-level state the callback runs against. *)
Record app := { final_df : DataFrame row }.

Inductive outcome (A : Type) :=
| Returned (a : A)
| Raised (exn : string).
Arguments Returned {A} a.
Arguments Raised {A} exn.

(** Computations over the state of the module that may raise. *)
Definition M (A : Type) : Type := app -> outcome A * app.

Definition ret {A} (a : A) : M A := fun st => (Returned a, st).
Definition raise {A} (exn : string) : M A := fun st => (Raised exn, st).
Definition bind {A B} (c : M A) (k : A -> M B) : M B :=
  fun st =>
    match c st with
    | (Returned a, st') => k a st'
    | (Raised e, st') => (Raised e, st')
    end.
Definition read_final_df : M (DataFrame row) :=
  fun st => (Returned (final_df st), st).

Notation "x <- c ;; k" := (bind c (fun x => k))
  (at level 61, c at next level, right associativity).

(** [l[i]] on a Python list *)
Definition getitem {A} (l : list A) (i : nat) : M A :=
  match nth_error l i with
  | Some x => ret x
  | None => raise "IndexError"
  end.

(** The figures, as the columns and settings handed to plotly express. *)
Record geo_point := {
  geo_lat : float;
  geo_lon : float;
  geo_hover_name : option string;
  geo_hover_data : string * float * string;
  geo_color : string;
  geo_size : float
}.

Record scatter_point := {
  sc_x : float;
  sc_y : float;
  sc_size : float;
  sc_color : string
}.

Record density_point := {
  dm_lat : float;
  dm_lon : float;
  dm_z : float
}.

Record figures := {
  geo_fig : list geo_point;                (* orthographic projection *)
  trend_fig : list (float * Z);            (* Year, Observations *)
  hyper_fig : list scatter_point;
  battle_fig : list density_point;
  battle_center : float * float            (* lat, lon *)
}.

Section Handler.
Context {L : Libs}.

(** [Series.between(left, right)], inclusive on both sides; a comparison
    with NaN is false. *)
Definition between (left right x : float) : bool :=
  ((left <=? x) && (x <=? right))%float.

(** [Series.isin(values)] on one cell *)
Definition isin (values : list string) (x : string) : bool :=
  existsb (String.eqb x) values.

(** The truth value of the dropdown's value, [None] or a list. *)
Definition truthy (countries : option (list string)) : bool :=
  match countries with
  | None | Some [] => false
  | Some (_ :: _) => true
  end.

Definition selected (countries : option (list string)) : list string :=
  match countries with
  | None => []
  | Some l => l
  end.

(** lines 70-72: the filtered frame [dff] *)
Definition filter_rows (countries : option (list string))
           (y0 y1 : float) (t : DataFrame row) : DataFrame row :=
  let dff := mask (fun r : row => between y0 y1 (Year r)) t in
  if truthy countries
  then mask (fun r : row => isin (selected countries) (country r)) dff
  else dff.

(** The same two selections taken in the other order. *)
Definition filter_rows_country_first (countries : option (list string))
           (y0 y1 : float) (t : DataFrame row) : DataFrame row :=
  let dff :=
    if truthy countries
    then mask (fun r : row => isin (selected countries) (country r)) t
    else t in
  mask (fun r : row => between y0 y1 (Year r)) dff.

(** [groupby('Year').size()]: the groups in increasing order of the key,
    NaN keys left out. *)
Fixpoint tally (y : float) (g : list (float * Z)) : list (float * Z) :=
  match g with
  | [] => [(y, 1%Z)]
  | (k, n) :: g' =>
      if (y =? k)%float then (k, (n + 1)%Z) :: g'
      else if (y <? k)%float then (y, 1%Z) :: (k, n) :: g'
      else (k, n) :: tally y g'
  end.

Definition groupby_size (ys : list float) : list (float * Z) :=
  fold_left (fun g y => if PrimFloat.is_nan y then g else tally y g) ys [].

(** [Series.mean()], pandas' [nanmean]: the cells that are NaN count for
    nothing (they enter the sum as 0), and the sum is divided by the number
    of the others only when that number is positive; the mean of nothing
    is NaN. *)
Definition series_mean (l : list float) : float :=
  let count := length (filter (fun x => negb (PrimFloat.is_nan x)) l) in
  let the_sum :=
    np_sum (map (fun x => if PrimFloat.is_nan x then 0%float else x) l) in
  if 0 <? count
  then (the_sum / float_of_int (Z.of_nat count))%float
  else PrimFloat.nan.

(** lines 74-86: each figure as the columns of [dff] that the call hands
    to plotly express, with the centre of the density map. What plotly
    does with them, raising included, is outside the model: the figures
    are used to say which rows are charted, not that a call succeeds. *)
Definition charts (dff : DataFrame row) : figures :=
  let rows := values dff in
  {| geo_fig :=
       map (fun r : row =>
              {| geo_lat := latitude r; geo_lon := longitude r;
                 geo_hover_name := city r;
                 geo_hover_data :=
                   (short_description r, Year r, Analysis_Category r);
                 geo_color := Analysis_Category r;
                 geo_size := veracity r |}) rows;
     trend_fig := groupby_size (map (fun r : row => Year r) rows);
     hyper_fig :=
       map (fun r : row =>
              {| sc_x := sentiment r; sc_y := subjectivity r;
                 sc_size := veracity r;
                 sc_color := Analysis_Category r |}) rows;
     battle_fig :=
       map (fun r : row =>
              {| dm_lat := latitude r; dm_lon := longitude r;
                 dm_z := image_score r |}) rows;
     battle_center :=
       (series_mean (map (fun r : row => latitude r) rows),
        series_mean (map (fun r : row => longitude r) rows)) |}.

(** lines 69-88 *)
Definition update_charts (countries : option (list string))
           (years : list float) : M figures :=
  t <- read_final_df ;;
  y0 <- getitem years 0 ;;
  y1 <- getitem years 1 ;;
  ret (charts (filter_rows countries y0 y1 t)).

End Handler.

(* ------------------------------------------------------------------ *)
(** ** The layout (lines 38-45) *)

(** [Series.unique()]: the values in the order of their first appearance. *)
Fixpoint unique_from (seen l : list string) : list string :=
  match l with
  | [] => []
  | x :: l' =>
      if existsb (String.eqb x) seen then unique_from seen l'
      else x :: unique_from (x :: seen) l'
  end.

Definition unique (l : list string) : list string := unique_from [] l.

(** [sorted(_)] on strings: Python orders them by code point and sorts
    stably; an insertion from the right end gives that list. *)
Fixpoint insert_sorted (x : string) (l : list string) : list string :=
  match l with
  | [] => [x]
  | y :: l' => if String.leb x y then x :: l else y :: insert_sorted x l'
  end.

Definition sorted (l : list string) : list string :=
  fold_right insert_sorted [] l.

(** line 40: the options of the country dropdown, as (label, value). *)
Definition dropdown_options (t : DataFrame row) : list (string * string) :=
  map (fun c => (c, c))
      (sorted (unique (map (fun r : row => country r) (values t)))).

(** The sum of the column [Observations] of the yearly trend. *)
Definition observations (g : list (float * Z)) : Z :=
  fold_right Z.add 0%Z (map snd g).

(** Two groups of the yearly trend in increasing order of their years, and
    a group whose year is a number and that counts a row at least. *)
Definition year_before (a b : float * Z) : Prop :=
  (fst a <? fst b)%float = true.

Definition group_ok (p : float * Z) : Prop :=
  PrimFloat.is_nan (fst p) = false /\ (1 <= snd p)%Z.

(** Two strings in increasing order of their code points. *)
Definition code_point_before (a b : string) : Prop := String.ltb a b = true.

(* ------------------------------------------------------------------ *)
(** ** Concrete inputs *)

(** A stand-in for the libraries, to run the model on concrete tables:
    neutral sentiment, unsigned decimal numerals as the only numbers read
    from text, a left-to-right sum. What is shown on a concrete table below
    is shown for every instance of [Libs] unless it names this one. *)
Fixpoint decimal (acc : Z) (s : list ascii) : option Z :=
  match s with
  | [] => Some acc
  | c :: s' =>
      if Text.in_range 48 57 c
      then decimal (10 * acc + Z.of_nat (Text.code c - 48)) s'
      else None
  end.

Definition stub_libs : Libs :=
  {| TextBlob_sentiment := fun _ => (0%float, 0%float);
     np_log := fun x => x;
     str_to_float := fun s =>
       match Text.chars s with
       | [] => None
       | l => option_map float_of_int (decimal 0 l)
       end;
     np_sum := fun l => fold_left PrimFloat.add l 0%float |}.

#[local] Set Warnings "-inexact-float".

(** The two rows of the end-to-end scenario. *)
Definition reno : csv_row :=
  {| csv_latitude := 39.5%float;
     csv_longitude := (-119.8)%float;
     csv_country := Some "USA";
     csv_city := Some "Reno";
     csv_Year := Num 1995%float;
     csv_description := Some "A silver saucer with a hovering disk shape" |}.

Definition paris : csv_row :=
  {| csv_latitude := 48.8%float;
     csv_longitude := 2.3%float;
     csv_country := Some "France";
     csv_city := Some "Paris";
     csv_Year := Num 2001%float;
     csv_description := Some "Bright orb seen over the city" |}.

(** A table read from a file whose [Year] column holds text in one
    line: pandas then keeps every cell of the column as text. *)
Definition reno_text_year : csv_row :=
  {| csv_latitude := 39.5%float;
     csv_longitude := (-119.8)%float;
     csv_country := Some "USA";
     csv_city := Some "Reno";
     csv_Year := Str "1995";
     csv_description := Some "A silver saucer with a hovering disk shape" |}.

Definition paris_unknown_year : csv_row :=
  {| csv_latitude := 48.8%float;
     csv_longitude := 2.3%float;
     csv_country := Some "France";
     csv_city := Some "Paris";
     csv_Year := Str "unknown";
     csv_description := Some "Bright orb seen over the city" |}.


(** The Reno row as it leaves line 14, the row of [final_df] it ends as
    under [stub_libs], and the enriched table of the scenario. *)
Definition reno_kept : kept_row :=
  {| k_latitude := 39.5%float;
     k_longitude := (-119.8)%float;
     k_country := "USA";
     k_city := Some "Reno";
     k_Year := Num 1995%float;
     k_description := "A silver saucer with a hovering disk shape" |}.

Definition reno_row : row := @enrich stub_libs reno_kept.

Definition scenario_table : DataFrame row := @pipeline stub_libs [reno; paris].

(* ------------------------------------------------------------------ *)
(** * Properties *)

(** ** Text *)

Example split_demo :
  Text.split "  Bright orb   seen" = ["Bright"; "orb"; "seen"].
Proof. reflexivity. Qed.

Example split_whitespace :
  Text.split (String "009" "a" ++ String "010" "b c" ++ String "160" "d")%string
  = ["a"; "b"; "c"; "d"]
  /\ Text.split "" = [] /\ Text.split "   " = [].
Proof. repeat split. Qed.

Example tokens_short_and_joined :
  Text.findall_tokens "a ufo, x-ray_1 orbs; UFO" = ["ufo"; "ray_1"; "orbs"; "UFO"].
Proof. reflexivity. Qed.

Example contains_nocase_demo :
  Text.contains_nocase "hover" "It was HOVERING" = true
  /\ Text.contains_nocase "orb" "a silver disk" = false.
Proof. split; reflexivity. Qed.

Example tokens_demo :
  Text.findall_tokens (Text.lower "A silver saucer with a hovering disk shape")
  = ["silver"; "saucer"; "with"; "hovering"; "disk"; "shape"].
Proof. reflexivity. Qed.

Section TextFacts.
Import Text.

Lemma str_chars (s : string) : str (chars s) = s.
Proof. apply string_of_list_ascii_of_string. Qed.

Lemma chars_str (l : list ascii) : chars (str l) = l.
Proof. apply list_ascii_of_string_of_list_ascii. Qed.

Lemma chars_inj (s t : string) : chars s = chars t -> s = t.
Proof.
  intros H. rewrite <- (str_chars s), <- (str_chars t). now rewrite H.
Qed.

Lemma lower_char_idem (c : ascii) : lower_char (lower_char c) = lower_char c.
Proof. destruct c as [[] [] [] [] [] [] [] []]; reflexivity. Qed.

Lemma lower_idem (s : string) : lower (lower s) = lower s.
Proof.
  unfold lower. rewrite chars_str, map_map. f_equal.
  apply map_ext. intros c. apply lower_char_idem.
Qed.

(** [len(s.split())] is the number of word starts of [s]. *)
Lemma runs_nonspace_length (s run : list ascii) :
  length (runs (fun c => negb (is_space c)) 1 run s)
  = match run with
    | [] => word_starts true s
    | _ :: _ => 1 + word_starts false s
    end.
Proof.
  revert run. induction s as [|c s IH]; intros run; simpl.
  - destruct run; reflexivity.
  - destruct (is_space c); simpl.
    + rewrite length_app, IH. destruct run; reflexivity.
    + rewrite IH. destruct run; reflexivity.
Qed.

Lemma split_length (s : string) : length (split s) = word_count s.
Proof.
  unfold split, word_count. rewrite length_map.
  apply (runs_nonspace_length (chars s) []).
Qed.


Lemma in_flush n run w : In w (flush n run) <-> w = run /\ n <= length w.
Proof.
  unfold flush. destruct (Nat.leb_spec n (length run)); simpl.
  - split; [intros [<-|[]]; auto | intros [-> _]; auto].
  - split; [intros [] | intros [-> H']; lia].
Qed.

Lemma in_runs (keep : ascii -> bool) (n : nat) (s run w : list ascii) :
  In w (runs keep n run s) <->
  n <= length w /\
  ((exists k post, s = k ++ post /\ w = run ++ k
                   /\ forallb keep k = true /\ starts_outside keep post)
   \/ (exists p c post, s = p ++ c :: w ++ post /\ keep c = false
                        /\ forallb keep w = true /\ starts_outside keep post)).
Proof.
  revert run. induction s as [|c s IH]; intros run; simpl.
  - rewrite in_flush. split.
    + intros [-> Hn]. split; [assumption|]. left. exists [], [].
      simpl. rewrite app_nil_r. repeat split.
    + intros [Hn [(k & post & Hs & -> & _)|(p & c & post & Hs & _)]].
      * symmetry in Hs. apply app_eq_nil in Hs as [-> _].
        rewrite app_nil_r in *. auto.
      * destruct p; discriminate.
  - destruct (keep c) eqn:Hc.
    + rewrite IH. apply and_iff_compat_l. split.
      * intros [(k & post & -> & -> & Hk & Hp)|(p & c' & post & -> & Hc' & Hw & Hp)].
        -- left. exists (c :: k), post. rewrite <- app_assoc. simpl.
           rewrite Hc. auto.
        -- right. exists (c :: p), c', post. auto.
      * intros [(k & post & Hs & -> & Hk & Hp)|(p & c' & post & Hs & Hc' & Hw & Hp)].
        -- destruct k as [|a k]; simpl in *.
           ++ subst post. simpl in Hp. congruence.
           ++ injection Hs as <- ->. apply andb_prop in Hk as [_ Hk].
              left. exists k, post. rewrite <- app_assoc. auto.
        -- destruct p as [|a p]; simpl in *.
           ++ injection Hs as <- _. congruence.
           ++ injection Hs as <- ->. right. exists p, c', post. auto.
    + rewrite in_app_iff, in_flush, IH. split.
      * intros [[-> Hn]|[Hn [(k & post & -> & -> & Hk & Hp)|(p & c' & post & -> & Hc' & Hw & Hp)]]].
        -- split; [assumption|]. left. exists [], (c :: s).
           rewrite app_nil_r. simpl. auto.
        -- split; [assumption|]. right. simpl. exists [], c, post. simpl. auto.
        -- split; [assumption|]. right. exists (c :: p), c', post. auto.
      * intros [Hn [(k & post & Hs & -> & Hk & Hp)|(p & c' & post & Hs & Hc' & Hw & Hp)]].
        -- destruct k as [|a k]; simpl in *.
           ++ left. rewrite app_nil_r in *. auto.
           ++ injection Hs as <- _. rewrite Hc in Hk. discriminate.
        -- destruct p as [|a p]; simpl in *.
           ++ injection Hs as <- ->. right. split; [assumption|].
              left. exists w, post. auto.
           ++ injection Hs as <- ->. right. split; [assumption|].
              right. exists p, c', post. auto.
Qed.

(** The tokens of a text are its whole words of two characters or more. *)
Lemma in_findall_tokens (w s : string) :
  In w (findall_tokens s) <->
  2 <= length (chars w) /\ forallb is_word (chars w) = true /\ whole_word w s.
Proof.
  unfold findall_tokens, whole_word. rewrite in_map_iff. split.
  - intros (l & <- & Hl). rewrite chars_str. apply in_runs in Hl.
    destruct Hl as [Hn [(k & post & Hs & -> & Hk & Hp)|(p & c & post & Hs & Hc & Hw & Hp)]].
    + simpl. repeat split; try assumption.
      exists [], post. simpl. repeat split; try assumption. now left.
    + repeat split; try assumption.
      exists (p ++ [c]), post. rewrite <- app_assoc. simpl.
      repeat split; try assumption. right. now exists p, c.
  - intros (Hn & Hw & pre & post & Hs & Hpre & Hpost).
    exists (chars w). split; [apply str_chars|].
    apply in_runs. split; [assumption|].
    destruct Hpre as [->|(p & c & -> & Hc)].
    + left. exists (chars w), post. auto.
    + right. exists p, c, post. rewrite <- app_assoc in Hs. auto.
Qed.

Lemma whole_word_substring (w s : string) : whole_word w s -> substring_of w s.
Proof. intros (pre & post & H & _). now exists pre, post. Qed.

End TextFacts.

Section VectorizerFacts.
Import CountVectorizer.

Lemma binarize_count (t : string) (tokens : list string) :
  (In t tokens -> binarize (count t tokens) = 1%Z)
  /\ (~ In t tokens -> binarize (count t tokens) = 0%Z).
Proof.
  unfold binarize, count. split; intros H.
  - apply (count_occ_In string_dec) in H.
    destruct (Z.eqb_spec (Z.of_nat (count_occ string_dec tokens t)) 0); [lia|reflexivity].
  - apply (count_occ_not_In string_dec) in H. now rewrite H.
Qed.

Lemma binarize_count_iff (t : string) (tokens : list string) :
  binarize (count t tokens) = 1%Z <-> In t tokens.
Proof.
  destruct (binarize_count t tokens) as [H1 H0]. split; [|exact H1].
  intros H. destruct (in_dec string_dec t tokens) as [|Hn]; [assumption|].
  rewrite (H0 Hn) in H. discriminate.
Qed.

Lemma binarize_two_valued (c : Z) : binarize c = 1%Z \/ binarize c = 0%Z.
Proof. unfold binarize. destruct (Z.eqb c 0); auto. Qed.

End VectorizerFacts.


(** ** float64 comparisons *)

Section FloatFacts.

Lemma SFcompare_refl (a : spec_float) :
  a <> S754_nan -> SFcompare a a = Some Eq.
Proof.
  destruct a as [s|s| |s m e]; simpl; intros H; try congruence.
  - destruct s; reflexivity.
  - rewrite Z.compare_refl, Pos.compare_cont_refl. destruct s; reflexivity.
Qed.

Lemma SFcompare_Eq_cases (a b : spec_float) :
  SFcompare a b = Some Eq ->
  a = b \/ exists s1 s2, a = S754_zero s1 /\ b = S754_zero s2.
Proof.
  destruct a as [s1|s1| |s1 m1 e1], b as [s2|s2| |s2 m2 e2]; simpl;
    intros H; try discriminate;
    try (right; now exists s1, s2);
    try (destruct s1; discriminate); try (destruct s2; discriminate).
  - destruct s1, s2; try discriminate; auto.
  - destruct s1, s2; try discriminate;
      destruct (Z.compare e1 e2) eqn:He; try discriminate;
      apply Z.compare_eq in He; subst e2;
      destruct (Pos.compare_cont Eq m1 m2) eqn:Hm; try discriminate;
      apply Pos.compare_eq in Hm; subst m2; now left.
Qed.

Lemma SFcompare_Eq_left (a b c : spec_float) :
  SFcompare a b = Some Eq -> SFcompare a c = SFcompare b c.
Proof.
  intros H. destruct (SFcompare_Eq_cases a b H) as [->|(s1 & s2 & -> & ->)].
  - reflexivity.
  - destruct c; reflexivity.
Qed.

Lemma SFcompare_Eq_right (a b c : spec_float) :
  SFcompare a b = Some Eq -> SFcompare c a = SFcompare c b.
Proof.
  intros H. destruct (SFcompare_Eq_cases a b H) as [->|(s1 & s2 & -> & ->)].
  - reflexivity.
  - destruct c; reflexivity.
Qed.

Lemma SFcompare_Eq_sym (a b : spec_float) :
  SFcompare a b = Some Eq -> SFcompare b a = Some Eq.
Proof.
  intros H. rewrite <- (SFcompare_Eq_left a b a H).
  now rewrite (SFcompare_Eq_right a b a H).
Qed.

Lemma float_eqb_Eq (x y : float) :
  (x =? y)%float = true -> SFcompare (Prim2SF x) (Prim2SF y) = Some Eq.
Proof.
  rewrite eqb_spec. unfold SFeqb.
  destruct (SFcompare (Prim2SF x) (Prim2SF y)) as [[]|]; congruence.
Qed.

Lemma float_eqb_leb (x y : float) :
  (x =? y)%float = true -> (x <=? y)%float = true /\ (y <=? x)%float = true.
Proof.
  intros H. apply float_eqb_Eq in H. rewrite !leb_spec. unfold SFleb.
  now rewrite (SFcompare_Eq_sym _ _ H), H.
Qed.

Lemma float_leb_eqb_left (x y z : float) :
  (x =? y)%float = true -> (x <=? z)%float = (y <=? z)%float.
Proof.
  intros H. apply float_eqb_Eq in H. rewrite !leb_spec. unfold SFleb.
  now rewrite (SFcompare_Eq_left _ _ _ H).
Qed.

Lemma float_leb_eqb_right (x y z : float) :
  (x =? y)%float = true -> (z <=? x)%float = (z <=? y)%float.
Proof.
  intros H. apply float_eqb_Eq in H. rewrite !leb_spec. unfold SFleb.
  now rewrite (SFcompare_Eq_right _ _ _ H).
Qed.

(** NaN is one value. *)
Lemma is_nan_eq (x : float) : PrimFloat.is_nan x = true -> x = PrimFloat.nan.
Proof.
  unfold PrimFloat.is_nan. rewrite eqb_spec. unfold SFeqb. intros H.
  destruct (Prim2SF x) eqn:Hx;
    try (rewrite SFcompare_refl in H by discriminate; discriminate).
  rewrite <- (SF2Prim_Prim2SF x), Hx. reflexivity.
Qed.

Lemma leb_nan_l (x : float) : (PrimFloat.nan <=? x)%float = false.
Proof. rewrite leb_spec. reflexivity. Qed.

Lemma leb_nan_r (x : float) : (x <=? PrimFloat.nan)%float = false.
Proof.
  rewrite leb_spec. unfold SFleb.
  change (Prim2SF PrimFloat.nan) with S754_nan.
  destruct (Prim2SF x); reflexivity.
Qed.

End FloatFacts.

(** ** Series and DataFrames *)

Section FrameFacts.
Context {A B : Type}.

Lemma index_apply (f : A -> B) (s : list (label * A)) :
  index (apply f s) = index s.
Proof. unfold index, apply. rewrite map_map. reflexivity. Qed.

Lemma values_apply (f : A -> B) (s : list (label * A)) :
  values (apply f s) = map f (values s).
Proof. unfold values, apply. now rewrite !map_map. Qed.

Lemma combine_apply (f : A -> B) (s : list (label * A)) :
  combine s (apply f s) = map (fun p => (p, (fst p, f (snd p)))) s.
Proof. induction s as [|p s IH]; simpl; [reflexivity|now rewrite IH]. Qed.

Lemma values_combine (idx : list label) (l : list A) :
  length idx = length l -> values (combine idx l) = l.
Proof.
  revert idx. induction l as [|x l IH]; intros [|i idx]; simpl;
    try discriminate; try reflexivity.
  intros H. injection H as H. f_equal. now apply IH.
Qed.

Lemma index_combine (idx : list label) (l : list A) :
  length idx = length l -> index (combine idx l) = idx.
Proof.
  revert idx. induction l as [|x l IH]; intros [|i idx]; simpl;
    try discriminate; try reflexivity.
  intros H. injection H as H. f_equal. now apply IH.
Qed.

Lemma values_with_range_index (l : list A) : values (with_range_index l) = l.
Proof. apply values_combine. now rewrite length_seq. Qed.

Lemma index_with_range_index (l : list A) :
  index (with_range_index l) = seq 0 (length l).
Proof. apply index_combine. now rewrite length_seq. Qed.

Lemma loc_absent (i : label) (s : list (label * A)) :
  ~ In i (index s) -> loc i s = None.
Proof.
  induction s as [|[j v] s IH]; simpl; intros H; [reflexivity|].
  destruct (Nat.eqb_spec i j) as [->|Hij]; [exfalso; auto|].
  apply IH. auto.
Qed.

Lemma index_mask_incl (p : A -> bool) (s : list (label * A)) (i : label) :
  In i (index (mask p s)) -> In i (index s).
Proof.
  unfold index, mask. rewrite !in_map_iff.
  intros (q & <- & Hq). apply filter_In in Hq as [Hq _]. now exists q.
Qed.

(** Looking a label up after a selection by mask, in a frame whose labels
    are pairwise distinct. *)
Lemma loc_mask (p : A -> bool) (s : list (label * A)) (i : label) (x : A) :
  NoDup (index s) -> In (i, x) s ->
  loc i (mask p s) = if p x then Some x else None.
Proof.
  induction s as [|[j v] s IH]; simpl; intros Hnd Hin; [contradiction|].
  inversion Hnd as [|? ? Hj Hnd']; subst.
  destruct Hin as [Heq|Hin].
  - injection Heq as -> ->. destruct (p x) eqn:Hp; simpl.
    + now rewrite Nat.eqb_refl.
    + apply loc_absent. intros H. apply Hj. now apply index_mask_incl in H.
  - assert (Hij : i <> j).
    { intros ->. apply Hj. unfold index. apply in_map_iff. now exists (j, x). }
    destruct (p v); simpl.
    + destruct (Nat.eqb_spec i j); [contradiction|]. now apply IH.
    + now apply IH.
Qed.

End FrameFacts.

(** ** The pipeline, row by row *)

Section PipelineFacts.
Context {L : Libs}.

Lemma index_dropna_subset_incl (df : DataFrame csv_row) (i : label) :
  In i (index (dropna_subset df)) -> In i (index df).
Proof.
  induction df as [|[j r] df IH]; simpl; [auto|].
  destruct (keep r); simpl; intuition.
Qed.

Lemma NoDup_index_dropna_subset (df : DataFrame csv_row) :
  NoDup (index df) -> NoDup (index (dropna_subset df)).
Proof.
  induction df as [|[j r] df IH]; simpl; intros H; [constructor|].
  inversion H as [|? ? Hj H']; subst.
  destruct (keep r); simpl; [|now apply IH].
  constructor; [|now apply IH].
  intros Hin. apply Hj. now apply index_dropna_subset_incl.
Qed.

Lemma NoDup_index_load (csv : list csv_row) : NoDup (index (load csv)).
Proof.
  unfold load. apply NoDup_index_dropna_subset.
  rewrite index_with_range_index. apply seq_NoDup.
Qed.

(** Line 15 drops nothing from the frame: the labels [dropna] removed from
    the Series are labels of [df] still, and the assignment fills them
    with NaN, the value the coercion had given them. *)
Lemma Year_column_eq (df : DataFrame kept_row) :
  NoDup (index df) ->
  Year_column df = apply (fun r => to_numeric (k_Year r)) df.
Proof.
  intros Hnd. unfold Year_column, setitem_aligned, index at 1, apply at 2.
  rewrite map_map. apply map_ext_in. intros [i r] Hin. simpl. f_equal.
  unfold dropna.
  rewrite (loc_mask _ _ i (to_numeric (k_Year r))).
  - destruct (PrimFloat.is_nan (to_numeric (k_Year r))) eqn:Hn; simpl;
      [symmetry; now apply is_nan_eq|reflexivity].
  - now rewrite index_apply.
  - unfold apply. apply in_map_iff. now exists (i, r).
Qed.

Lemma df_features_eq (csv : list csv_row) :
  df_features csv = apply (fun k => derive k (to_numeric (k_Year k))) (load csv).
Proof.
  unfold df_features. cbv zeta.
  rewrite (Year_column_eq _ (NoDup_index_load csv)), combine_apply, map_map.
  reflexivity.
Qed.

Lemma concat_columns_combine (idx : list label) (l : list obs)
      (g : obs -> list (string * Z)) :
  concat_columns (combine idx l) (combine idx (map g l))
  = combine idx (map (fun o => {| features := o; kw_columns := g o |}) l).
Proof.
  unfold concat_columns. revert idx.
  induction l as [|o l IH]; intros [|i idx]; simpl; try reflexivity.
  now rewrite IH.
Qed.

Lemma pipeline_eq (csv : list csv_row) :
  pipeline csv = with_range_index (map enrich (values (load csv))).
Proof.
  unfold pipeline, keywords_df, reset_index, CountVectorizer.fit_transform.
  cbv zeta. rewrite df_features_eq, values_apply.
  unfold with_range_index.
  set (d := fun k => derive k (to_numeric (k_Year k))).
  set (l := values (load csv)).
  rewrite !length_map.
  replace (map (combine kw_names) (map _ (map _ (map d l))))
    with (map (fun o => keyword_row (description o)) (map d l))
    by (now rewrite !map_map).
  rewrite concat_columns_combine, map_map. reflexivity.
Qed.

Lemma pipeline_values (csv : list csv_row) :
  values (pipeline csv) = map enrich (values (load csv)).
Proof. rewrite pipeline_eq. apply values_with_range_index. Qed.

Lemma in_pipeline (csv : list csv_row) (r : row) :
  In r (values (pipeline csv)) <-> exists k, In k (values (load csv)) /\ r = enrich k.
Proof.
  rewrite pipeline_values, in_map_iff. split; intros (k & H1 & H2); exists k; auto.
Qed.

End PipelineFacts.

(** ** Keyword columns *)

Section KeywordFacts.
Import Text CountVectorizer.

Lemma starts_with_iff (p s : list ascii) :
  starts_with p s = true <-> exists post, s = p ++ post.
Proof.
  revert s. induction p as [|a p IH]; intros s; simpl.
  - split; [intros _; now exists s|reflexivity].
  - destruct s as [|b s]; simpl.
    + split; [discriminate|intros [post H]; discriminate].
    + rewrite andb_true_iff, IH. split.
      * intros [Hab [post ->]]. apply Ascii.eqb_eq in Hab as ->. now exists post.
      * intros [post H]. injection H as -> ->. split; [apply Ascii.eqb_refl|now exists post].
Qed.

Lemma contains_chars_iff (p s : list ascii) :
  contains_chars p s = true <-> exists pre post, s = pre ++ p ++ post.
Proof.
  induction s as [|b s IH]; simpl.
  - rewrite orb_false_r, starts_with_iff. split.
    + intros [post H]. now exists [], post.
    + intros (pre & post & H). symmetry in H.
      apply app_eq_nil in H as [-> H]. apply app_eq_nil in H as [-> ->].
      now exists [].
  - rewrite orb_true_iff, starts_with_iff, IH. split.
    + intros [[post H]|(pre & post & ->)].
      * now exists [], post.
      * now exists (b :: pre), post.
    + intros ([|c pre] & post & H); simpl in H.
      * left. now exists post.
      * injection H as -> ->. right. now exists pre, post.
Qed.

Lemma contains_iff (w s : string) : contains w s = true <-> substring_of w s.
Proof. apply contains_chars_iff. Qed.

Lemma kw_lookup (g : string -> Z) (l : list string) (T : string) :
  In T l ->
  find (fun p => String.eqb (fst p) ("kw_" ++ T)%string)
       (combine (map (fun kw => ("kw_" ++ kw)%string) l) (map g l))
  = Some (("kw_" ++ T)%string, g T).
Proof.
  induction l as [|x l IH]; simpl; intros H; [contradiction|].
  destruct (String.eqb_spec x T) as [->|E].
  - reflexivity.
  - destruct H as [->|H]; [congruence|]. now apply IH.
Qed.

(** The cell of the column [kw_T] in the row of a description. *)
Lemma keyword_row_flag (d T : string) :
  In T keywords ->
  find (fun p => String.eqb (fst p) ("kw_" ++ T)%string) (keyword_row d)
  = Some (("kw_" ++ T)%string, binarize (count T (findall_tokens (lower d)))).
Proof.
  intros H. unfold keyword_row, kw_names, count_vocab, analyze.
  rewrite map_map, lower_idem.
  apply (kw_lookup (fun t => binarize (count t (findall_tokens (lower d))))).
  exact H.
Qed.

(** "hover" is a substring of the Reno description and no whole word of
    it. *)
Example hover_inside_hovering :
  substring_of "hover" (lower "A silver saucer with a hovering disk shape")
  /\ ~ whole_word "hover" (lower "A silver saucer with a hovering disk shape").
Proof.
  split.
  - apply contains_iff. reflexivity.
  - intros H.
    assert (Hin : In "hover"
                     (findall_tokens
                        (lower "A silver saucer with a hovering disk shape"))).
    { apply in_findall_tokens. repeat split; [simpl; lia|exact H]. }
    vm_compute in Hin. intuition discriminate.
Qed.

Lemma keywords_are_words :
  Forall (fun T => 2 <= length (chars T) /\ forallb is_word (chars T) = true
                   /\ lower T = T) keywords.
Proof. repeat constructor. Qed.

End KeywordFacts.

(* ------------------------------------------------------------------ *)
(** * The enriched table *)

Section EnrichedTable.
Context {L : Libs}.

(** What line 15 leaves of a row whose year is not a number: the row, with
    NaN for its year. *)
Lemma coercion_failure_keeps_row (csv : list csv_row) (k : kept_row) :
  In k (values (load csv)) ->
  PrimFloat.is_nan (to_numeric (k_Year k)) = true ->
  In (enrich k) (values (pipeline csv))
  /\ Year (enrich k) = PrimFloat.nan.
Proof.
  intros Hin Hnan. split.
  - apply in_pipeline. now exists k.
  - simpl. now apply is_nan_eq.
Qed.

(** C1, on a file whose [Year] column holds the text [unknown] in one
    line: the process starts, and the row is in the enriched table with
    NaN for its year; line 15 has not dropped it. *)
Theorem unparsable_year_row_stays :
  str_to_float "1995" = Some 1995%float ->
  str_to_float "unknown" = None ->
  startup [reno_text_year; paris_unknown_year]
  = Some (pipeline [reno_text_year; paris_unknown_year])
  /\ length (pipeline [reno_text_year; paris_unknown_year]) = 2
  /\ exists r : row,
       In r (values (pipeline [reno_text_year; paris_unknown_year]))
       /\ city r = Some "Paris"
       /\ PrimFloat.is_nan (Year r) = true.
Proof.
  intros H1995 Hunknown.
  assert (Hv : map (fun r : row => Year r)
                   (values (pipeline [reno_text_year; paris_unknown_year]))
               = [1995%float; PrimFloat.nan]).
  { rewrite pipeline_values. simpl. now rewrite H1995, Hunknown. }
  split; [|split].
  - unfold startup. cbv zeta. rewrite Hv. reflexivity.
  - rewrite pipeline_eq. reflexivity.
  - rewrite pipeline_values. simpl. eexists. split; [right; left; reflexivity|].
    simpl. rewrite Hunknown. split; reflexivity.
Qed.

(** C4: in every row of the enriched table, [mentions] is the number of
    words of the description, [impact] is log(mentions+1), [veracity] is
    log(mentions+1) * |sentiment| and [image_score] is
    (|sentiment| + subjectivity) * veracity. *)
Theorem derived_fields_formulas (csv : list csv_row) :
  Forall (fun r : row =>
            mentions r = Z.of_nat (Text.word_count (description r))
            /\ impact r = np_log (float_of_int (mentions r + 1))
            /\ veracity r
               = (np_log (float_of_int (mentions r + 1))
                  * PrimFloat.abs (sentiment r))%float
            /\ image_score r
               = ((PrimFloat.abs (sentiment r) + subjectivity r)
                  * veracity r)%float)
         (values (pipeline csv)).
Proof.
  rewrite pipeline_values. apply Forall_map, Forall_forall.
  intros k _. simpl. unfold astype_str. rewrite split_length.
  repeat split.
Qed.

(** C5: in every row of the enriched table the category is "Scientific"
    when the subjectivity is below 0.5 and "Emotional" otherwise; it is
    one of the two for every row. *)
Theorem category_by_subjectivity (csv : list csv_row) :
  Forall (fun r : row =>
            Analysis_Category r
            = (if (subjectivity r <? 0.5)%float
               then "Scientific" else "Emotional")
            /\ (Analysis_Category r = "Scientific"
                <-> (subjectivity r <? 0.5)%float = true)
            /\ (Analysis_Category r = "Emotional"
                <-> (subjectivity r <? 0.5)%float = false)
            /\ (Analysis_Category r = "Scientific"
                \/ Analysis_Category r = "Emotional"))
         (values (pipeline csv)).
Proof.
  rewrite pipeline_values. apply Forall_map, Forall_forall.
  intros k _. simpl. unfold categorize.
  destruct (snd (TextBlob_sentiment (astype_str (k_description k))) <? 0.5)%float;
    repeat split; auto; discriminate.
Qed.

(** C2, as the code has it: for every row of the enriched table and every
    keyword T, the cell of [kw_T] is 1 when T occurs in the lower-cased
    description as a whole word (a token of the vectorizer) and 0
    otherwise. A flag that is set does tell that T is a substring of the
    description, case apart; a substring inside a longer word sets no
    flag. *)
Theorem kw_flag_whole_word (csv : list csv_row) (r : row) (T : string) :
  In r (values (pipeline csv)) ->
  In T keywords ->
  (kw_flag r ("kw_" ++ T)%string = Some 1%Z
   <-> Text.whole_word T (Text.lower (description r)))
  /\ (kw_flag r ("kw_" ++ T)%string = Some 1%Z
      \/ kw_flag r ("kw_" ++ T)%string = Some 0%Z)
  /\ (kw_flag r ("kw_" ++ T)%string = Some 1%Z
      -> Text.contains_nocase T (description r) = true).
Proof.
  intros Hr HT. apply in_pipeline in Hr as (k & _ & ->).
  unfold kw_flag.
  change (kw_columns (enrich k)) with (keyword_row (k_description k)).
  change (description (enrich k)) with (k_description k).
  rewrite (keyword_row_flag _ _ HT). cbn [snd].
  pose proof keywords_are_words as Hw. rewrite Forall_forall in Hw.
  destruct (Hw T HT) as (Hlen & Hword & Hlow).
  assert (Hiff : CountVectorizer.binarize
                   (CountVectorizer.count T
                      (Text.findall_tokens (Text.lower (k_description k))))
                 = 1%Z
                 <-> Text.whole_word T (Text.lower (k_description k))).
  { rewrite binarize_count_iff, in_findall_tokens. tauto. }
  split; [|split].
  - rewrite <- Hiff. split; [intros H; now injection H|intros ->; reflexivity].
  - destruct (binarize_two_valued
                (CountVectorizer.count T
                   (Text.findall_tokens (Text.lower (k_description k)))))
      as [-> | ->]; auto.
  - intros H. injection H as H. apply Hiff in H.
    unfold Text.contains_nocase. rewrite Hlow.
    apply contains_iff. now apply whole_word_substring.
Qed.

End EnrichedTable.

(* ------------------------------------------------------------------ *)
(** * The filter handler *)

Section Filtering.

Lemma mask_mask_comm {A : Type} (p q : A -> bool) (s : list (label * A)) :
  mask p (mask q s) = mask q (mask p s).
Proof.
  unfold mask. induction s as [|x s IH]; simpl; [reflexivity|].
  destruct (q (snd x)) eqn:Hq, (p (snd x)) eqn:Hp; simpl;
    rewrite ?Hq, ?Hp, IH; reflexivity.
Qed.

Lemma in_mask {A : Type} (p : A -> bool) (s : list (label * A)) (x : label * A) :
  In x (mask p s) <-> In x s /\ p (snd x) = true.
Proof. unfold mask. apply filter_In. Qed.

(** A row whose year is NaN passes no year filter. *)
Lemma between_nan (lo hi : float) : between lo hi PrimFloat.nan = false.
Proof. unfold between. now rewrite leb_nan_r. Qed.

(** C6: the year filter is inclusive at both ends. For a range with
    min <= max, a row whose year equals the minimum or the maximum
    passes the year filter, and is in the filtered frame whenever the
    country selection is empty or holds its country. *)
Theorem year_filter_inclusive (t : DataFrame row)
        (countries : option (list string)) (lo hi : float)
        (i : label) (r : row) :
  In (i, r) t ->
  (lo <=? hi)%float = true ->
  (Year r =? lo)%float = true \/ (Year r =? hi)%float = true ->
  between lo hi (Year r) = true
  /\ In (i, r) (mask (fun r : row => between lo hi (Year r)) t)
  /\ (truthy countries = false
      \/ isin (selected countries) (country r) = true ->
      In (i, r) (filter_rows countries lo hi t)).
Proof.
  intros Hin Hle Heq.
  assert (Hb : between lo hi (Year r) = true).
  { unfold between. apply andb_true_iff. destruct Heq as [H|H].
    - destruct (float_eqb_leb _ _ H) as [_ H1].
      now rewrite H1, (float_leb_eqb_left _ _ _ H).
    - destruct (float_eqb_leb _ _ H) as [H1 _].
      now rewrite H1, (float_leb_eqb_right _ _ _ H). }
  assert (Hm : In (i, r) (mask (fun r : row => between lo hi (Year r)) t)).
  { apply in_mask. auto. }
  repeat split; try assumption.
  intros Hc. unfold filter_rows. cbv zeta.
  destruct (truthy countries) eqn:Ht; [|assumption].
  destruct Hc as [Hc|Hc]; [discriminate|].
  apply in_mask. auto.
Qed.

(** C7: with no country selected ([None], or the empty list) the filtered
    frame is the year filter's alone, whatever the countries of the rows:
    every row in the year range is kept. *)
Theorem empty_country_selection_keeps_all (t : DataFrame row) (lo hi : float) :
  filter_rows None lo hi t = mask (fun r : row => between lo hi (Year r)) t
  /\ filter_rows (Some []) lo hi t
     = mask (fun r : row => between lo hi (Year r)) t
  /\ forall (i : label) (r : row),
       In (i, r) t -> between lo hi (Year r) = true ->
       In (i, r) (filter_rows None lo hi t)
       /\ In (i, r) (filter_rows (Some []) lo hi t).
Proof.
  repeat split; try reflexivity; unfold filter_rows; simpl;
    apply in_mask; auto.
Qed.

(** C8: filtering by year and then by country gives the frame that
    filtering by country and then by year gives. *)
Theorem filter_order_irrelevant (t : DataFrame row)
        (countries : option (list string)) (lo hi : float) :
  filter_rows countries lo hi t = filter_rows_country_first countries lo hi t.
Proof.
  unfold filter_rows, filter_rows_country_first. cbv zeta.
  destruct (truthy countries); [apply mask_mask_comm|reflexivity].
Qed.

End Filtering.

Section Callback.
Context {L : Libs}.

(** C9: the handler leaves the enriched table as it was, for every
    country selection and every list of years, whether it returns or
    raises. *)
Theorem update_charts_preserves_table (countries : option (list string))
        (years : list float) (st : app) :
  snd (update_charts countries years st) = st
  /\ final_df (snd (update_charts countries years st)) = final_df st.
Proof.
  assert (H : snd (update_charts countries years st) = st).
  { unfold update_charts, bind, read_final_df, getitem.
    destruct years as [|y0 [|y1 years]]; reflexivity. }
  split; [exact H|now rewrite H].
Qed.

(** C3, as the code has it: on the table of the Reno and Paris rows the
    process starts, and the handler called with the years [1995, 1995] and
    no country builds its figures from the Reno row alone, whose keyword
    cells are kw_saucer = 1, kw_disk = 1, kw_hover = 0 ("hovering" is not
    the token "hover") and kw_orb = 0. *)
Theorem scenario_reno_only :
  exists r : row,
    startup [reno; paris] = Some (pipeline [reno; paris])
    /\ filter_rows None 1995 1995 (pipeline [reno; paris]) = [(0, r)]
    /\ fst (update_charts None [1995%float; 1995%float]
                          {| final_df := pipeline [reno; paris] |})
       = Returned (charts [(0, r)])
    /\ country r = "USA" /\ city r = Some "Reno" /\ Year r = 1995%float
    /\ description r = "A silver saucer with a hovering disk shape"
    /\ kw_flag r "kw_saucer" = Some 1%Z
    /\ kw_flag r "kw_disk" = Some 1%Z
    /\ kw_flag r "kw_hover" = Some 0%Z
    /\ kw_flag r "kw_orb" = Some 0%Z.
Proof.
  eexists. split; [reflexivity|]. split; [reflexivity|].
  split; [reflexivity|]. repeat split.
Qed.

End Callback.

(* ------------------------------------------------------------------ *)
(** * The claims on concrete tables *)

(** C1 at [stub_libs], which reads "1995" as a number and "unknown" as
    none. *)
Lemma unparsable_year_row_stays_witness :
  @str_to_float stub_libs "unknown" = None
  /\ @startup stub_libs [reno_text_year; paris_unknown_year]
     = Some (@pipeline stub_libs [reno_text_year; paris_unknown_year])
  /\ length (@pipeline stub_libs [reno_text_year; paris_unknown_year]) = 2.
Proof.
  split; [reflexivity|].
  destruct (@unparsable_year_row_stays stub_libs eq_refl eq_refl)
    as (Hs & Hl & _).
  split; [exact Hs|exact Hl].
Defined.

(** C2 read as a substring test fails on the Reno row: "hover" is a
    substring of its description, inside "hovering", and the cell of
    [kw_hover] is 0, whatever the libraries compute. *)
Lemma kw_hover_misses_hovering :
  In "hover" keywords
  /\ Text.contains_nocase "hover" "A silver saucer with a hovering disk shape"
     = true
  /\ forall L : Libs,
       exists r : row,
         values (@pipeline L [reno]) = [r]
         /\ description r = "A silver saucer with a hovering disk shape"
         /\ kw_flag r "kw_hover" = Some 0%Z.
Proof.
  split; [|split].
  - unfold keywords. simpl. tauto.
  - reflexivity.
  - intros L. eexists. split; [reflexivity|]. split; reflexivity.
Qed.

(** The keyword theorem at the Reno row and the keyword "saucer". *)
Lemma kw_flag_whole_word_witness :
  In reno_row (values scenario_table)
  /\ In "saucer" keywords
  /\ (kw_flag reno_row "kw_saucer" = Some 1%Z
      <-> Text.whole_word "saucer" (Text.lower (description reno_row))).
Proof.
  assert (Hr : In reno_row (values scenario_table)) by (left; reflexivity).
  assert (HT : In "saucer" keywords) by (unfold keywords; simpl; tauto).
  split; [exact Hr|]. split; [exact HT|].
  exact (proj1 (@kw_flag_whole_word stub_libs [reno; paris] reno_row "saucer"
                                    Hr HT)).
Defined.

(** C3 as stated fails: whatever the libraries compute, the one row the
    scenario selects does not have kw_hover = 1 next to the other three
    cells. *)
Lemma scenario_kw_hover_not_set :
  ~ exists (L : Libs) (r : row),
      values (filter_rows None 1995 1995 (@pipeline L [reno; paris])) = [r]
      /\ kw_flag r "kw_saucer" = Some 1%Z
      /\ kw_flag r "kw_disk" = Some 1%Z
      /\ kw_flag r "kw_hover" = Some 1%Z
      /\ kw_flag r "kw_orb" = Some 0%Z.
Proof.
  intros (L & r & Hr & _ & _ & Hh & _).
  change (values (filter_rows None 1995 1995 (pipeline [reno; paris])))
    with [@enrich L reno_kept] in Hr.
  injection Hr as <-. discriminate Hh.
Qed.

(** The year filter at the Reno row of the scenario, whose year is the
    minimum of the range [1995, 2001]. *)
Lemma year_filter_inclusive_witness :
  In (0, reno_row) scenario_table
  /\ (1995 <=? 2001)%float = true
  /\ (Year reno_row =? 1995)%float = true
  /\ In (0, reno_row) (filter_rows None 1995 2001 scenario_table).
Proof.
  assert (Hin : In (0, reno_row) scenario_table) by (left; reflexivity).
  assert (Hle : (1995 <=? 2001)%float = true) by reflexivity.
  assert (Heq : (Year reno_row =? 1995)%float = true) by reflexivity.
  split; [exact Hin|]. split; [exact Hle|]. split; [exact Heq|].
  apply (year_filter_inclusive scenario_table None 1995 2001 0 reno_row
                               Hin Hle (or_introl Heq)).
  left. reflexivity.
Defined.


(* ------------------------------------------------------------------ *)
(** * Further properties of the script *)

(** ** The order of float64 *)

Section FloatOrder.

Lemma SFcompare_antisym (a b : spec_float) :
  SFcompare b a = option_map CompOpp (SFcompare a b).
Proof.
  destruct a as [s1|s1| |s1 m1 e1], b as [s2|s2| |s2 m2 e2]; simpl;
    try reflexivity;
    try (destruct s1; reflexivity); try (destruct s2; reflexivity);
    try (destruct s1, s2; reflexivity).
  destruct s1, s2; simpl; try reflexivity;
    rewrite (Z.compare_antisym e1 e2);
    destruct (Z.compare e1 e2) eqn:He; simpl; try reflexivity;
    rewrite (Pos.compare_cont_antisym m1 m2 Eq); simpl;
    destruct (Pos.compare_cont Eq m1 m2); reflexivity.
Qed.

Lemma SFcompare_some (a b : spec_float) :
  a <> S754_nan -> b <> S754_nan -> exists c, SFcompare a b = Some c.
Proof.
  destruct a, b; simpl; intros Ha Hb; try congruence; eauto.
Qed.

Lemma SFleb_trans (a b c : spec_float) :
  SFleb a b = true -> SFleb b c = true -> SFleb a c = true.
Proof.
  unfold SFleb.
  destruct a as [s1|s1| |s1 m1 e1], b as [s2|s2| |s2 m2 e2],
           c as [s3|s3| |s3 m3 e3]; simpl; try discriminate;
    try (destruct s1; simpl; try discriminate);
    try (destruct s2; simpl; try discriminate);
    try (destruct s3; simpl; try discriminate);
    try reflexivity;
    change (Pos.compare_cont Eq) with Pos.compare;
    repeat match goal with
           | |- context [Z.compare ?x ?y] =>
               destruct (Z.compare_spec x y); simpl; try discriminate
           | |- context [Pos.compare ?x ?y] =>
               destruct (Pos.compare_spec x y); simpl; try discriminate
           end;
    intros; subst; try reflexivity; try discriminate; lia.
Qed.

Lemma float_leb_trans (x y z : float) :
  (x <=? y)%float = true -> (y <=? z)%float = true -> (x <=? z)%float = true.
Proof. rewrite !leb_spec. apply SFleb_trans. Qed.

Lemma not_nan_SF (x : float) :
  PrimFloat.is_nan x = false <-> Prim2SF x <> S754_nan.
Proof.
  unfold PrimFloat.is_nan. rewrite eqb_spec. unfold SFeqb. split.
  - intros H E. rewrite E in H. discriminate.
  - intros H. now rewrite SFcompare_refl.
Qed.

(** A float below another is not above it. *)
Lemma float_ltb_not_leb (x y : float) :
  (x <? y)%float = true -> (y <=? x)%float = false.
Proof.
  rewrite ltb_spec, leb_spec. unfold SFltb, SFleb.
  rewrite (SFcompare_antisym (Prim2SF x) (Prim2SF y)).
  destruct (SFcompare (Prim2SF x) (Prim2SF y)) as [[]|]; simpl; congruence.
Qed.

(** Two floats that are numbers are equal or one is below the other. *)
Lemma float_trichotomy (x y : float) :
  PrimFloat.is_nan x = false -> PrimFloat.is_nan y = false ->
  (x =? y)%float = false -> (x <? y)%float = false -> (y <? x)%float = true.
Proof.
  rewrite !not_nan_SF, eqb_spec, !ltb_spec. unfold SFeqb, SFltb.
  intros Hx Hy. rewrite (SFcompare_antisym (Prim2SF x) (Prim2SF y)).
  destruct (SFcompare_some _ _ Hx Hy) as [c ->].
  destruct c; simpl; congruence.
Qed.

Lemma float_leb_not_nan (x y : float) :
  (x <=? y)%float = true ->
  PrimFloat.is_nan x = false /\ PrimFloat.is_nan y = false.
Proof.
  rewrite leb_spec, !not_nan_SF. unfold SFleb. intros H.
  split; intros E; rewrite E in H; simpl in H;
    [|destruct (Prim2SF x)]; discriminate.
Qed.

End FloatOrder.

(** ** More on the enriched table *)

Section TableFacts.
Context {L : Libs}.

Lemma in_dropna_subset (df : DataFrame csv_row) (i : label) (k : kept_row) :
  In (i, k) (dropna_subset df) <-> exists r, In (i, r) df /\ keep r = Some k.
Proof.
  induction df as [|[j r] df IH]; simpl.
  - split; [contradiction|intros (r & [] & _)].
  - destruct (keep r) as [k'|] eqn:Hk; simpl; rewrite IH; split.
    + intros [E|(r' & Hin & Hr')].
      * injection E as <- <-. exists r. auto.
      * exists r'. auto.
    + intros (r' & [E|Hin] & Hr').
      * injection E as <- <-. left. congruence.
      * right. exists r'. auto.
    + intros (r' & Hin & Hr'). exists r'. auto.
    + intros (r' & [E|Hin] & Hr').
      * injection E as <- <-. congruence.
      * exists r'. auto.
Qed.

Lemma length_dropna_subset (df : DataFrame csv_row) :
  length (dropna_subset df) <= length df.
Proof.
  induction df as [|[j r] df IH]; simpl; [lia|].
  destruct (keep r); simpl; lia.
Qed.

Lemma in_with_range_index {A : Type} (l : list A) (i : label) (x : A) :
  In (i, x) (with_range_index l) -> In x l.
Proof. unfold with_range_index. apply in_combine_r. Qed.

(** Every row that passed line 14 is a line of the file with its five
    required cells. *)
Lemma in_load (csv : list csv_row) (k : kept_row) :
  In k (values (load csv)) -> exists r, In r csv /\ keep r = Some k.
Proof.
  unfold values, load. rewrite in_map_iff. intros ([i k'] & E & Hin).
  simpl in E. subst k'. apply in_dropna_subset in Hin as (r & Hin & Hk).
  exists r. split; [now apply in_with_range_index in Hin|exact Hk].
Qed.

Lemma keep_some (r : csv_row) (k : kept_row) :
  keep r = Some k ->
  PrimFloat.is_nan (csv_latitude r) = false
  /\ PrimFloat.is_nan (csv_longitude r) = false
  /\ isna (csv_Year r) = false
  /\ csv_country r = Some (k_country k)
  /\ csv_description r = Some (k_description k)
  /\ k_latitude k = csv_latitude r /\ k_longitude k = csv_longitude r
  /\ k_city k = csv_city r /\ k_Year k = csv_Year r.
Proof.
  unfold keep. destruct (csv_country r), (csv_description r); try discriminate.
  destruct (PrimFloat.is_nan (csv_latitude r)),
           (PrimFloat.is_nan (csv_longitude r)),
           (isna (csv_Year r)); simpl; try discriminate.
  intros E. injection E as <-. simpl. repeat split.
Qed.



(** X1: The labels of [final_df] are 0..n-1 whatever lines were dropped, [n]
    being the number of lines that passed line 14. *)
Theorem final_df_labels_contiguous (csv : list csv_row) :
  index (pipeline csv) = seq 0 (length (pipeline csv))
  /\ length (pipeline csv) = length (load csv)
  /\ length (pipeline csv) <= length csv.
Proof.
  assert (Hlen : length (pipeline csv) = length (load csv)).
  { rewrite pipeline_eq. unfold with_range_index, values.
    rewrite length_combine, length_seq, !length_map. apply Nat.min_id. }
  split; [|split].
  - rewrite Hlen, pipeline_eq, index_with_range_index.
    unfold values. now rewrite !length_map.
  - exact Hlen.
  - rewrite Hlen. unfold load.
    etransitivity; [apply length_dropna_subset|].
    unfold with_range_index. rewrite length_combine, length_seq. lia.
Qed.

(** X2: Line 15 drops no row: the column [Year] of the enriched table is, row
    by row, what [pd.to_numeric] made of the cell that passed line 14, NaN
    included. *)
Theorem year_column_is_coerced_column (csv : list csv_row) :
  map (fun r : row => Year r) (values (pipeline csv))
  = map (fun k => to_numeric (k_Year k)) (values (load csv)).
Proof. rewrite pipeline_values, map_map. reflexivity. Qed.

(** X3: When pandas read the column [Year] as numbers, no row of the enriched
    table has NaN for its year. *)
Theorem numeric_year_column_has_no_nan (csv : list csv_row) :
  Forall (fun r => exists x, csv_Year r = Num x) csv ->
  Forall (fun r : row => PrimFloat.is_nan (Year r) = false)
         (values (pipeline csv)).
Proof.
  intros Hnum. rewrite pipeline_values. apply Forall_map, Forall_forall.
  intros k Hk. apply in_load in Hk as (r & Hr & Hkeep).
  apply keep_some in Hkeep as (_ & _ & Hna & _ & _ & _ & _ & _ & HY).
  rewrite Forall_forall in Hnum. destruct (Hnum r Hr) as [x Hx].
  simpl. rewrite HY, Hx. rewrite Hx in Hna. exact Hna.
Qed.



End TableFacts.

(** ** More on the text features *)

Section TextFeatures.
Context {L : Libs}.
Import Text.








Lemma combine_maps_fst_snd {A B C : Type} (p : A -> B) (g : A -> C)
      (l : list A) :
  map fst (combine (map p l) (map g l)) = map p l
  /\ map snd (combine (map p l) (map g l)) = map g l.
Proof.
  induction l as [|x l [IH1 IH2]]; simpl; [auto|]. now rewrite IH1, IH2.
Qed.

(** X8: Every row of the enriched table has the twelve keyword cells, named
    [kw_] and the keyword, in the order of the vocabulary, and each cell
    is 0 or 1: a keyword met several times still gives 1. *)
Theorem keyword_columns_schema (csv : list csv_row) :
  Forall (fun r : row =>
            map fst (kw_columns r) = kw_names
            /\ length (kw_columns r) = 12
            /\ Forall (fun v => v = 0%Z \/ v = 1%Z) (map snd (kw_columns r)))
         (values (pipeline csv)).
Proof.
  rewrite pipeline_values. apply Forall_map, Forall_forall.
  intros k _.
  change (kw_columns (enrich k)) with (keyword_row (k_description k)).
  unfold keyword_row, CountVectorizer.count_vocab, kw_names.
  rewrite map_map.
  match goal with
  | |- context [combine (map ?p keywords) (map ?g keywords)] =>
      destruct (combine_maps_fst_snd p g keywords) as [H1 H2];
      assert (Hlen : length (combine (map p keywords) (map g keywords)) = 12)
        by reflexivity
  end.
  rewrite H1, H2. split; [reflexivity|]. split; [exact Hlen|].
  apply Forall_map, Forall_forall. intros t _.
  destruct (binarize_two_valued
              (CountVectorizer.count t
                 (CountVectorizer.analyze (lower (k_description k))))); auto.
Qed.

Lemma length_substring_0 (n : nat) (s : string) :
  String.length (substring 0 n s) = Nat.min n (String.length s).
Proof.
  revert s. induction n as [|n IH]; intros [|c s]; simpl; try reflexivity.
  now rewrite IH.
Qed.

Lemma substring_0_all (n : nat) (s : string) :
  String.length s <= n -> substring 0 n s = s.
Proof.
  revert s. induction n as [|n IH]; intros [|c s]; simpl; intros H;
    try reflexivity; try lia.
  f_equal. apply IH. lia.
Qed.

Lemma length_append (s t : string) :
  String.length (s ++ t)%string = String.length s + String.length t.
Proof. induction s as [|c s IH]; simpl; [reflexivity|now rewrite IH]. Qed.

(** X9: Line 25 always appends the three dots: a description of at most 100
    characters is shown whole and followed by them, a longer one is cut to
    its first 100 characters; the short description has at most 103
    characters. *)
Theorem short_description_shape (csv : list csv_row) :
  Forall (fun r : row =>
            String.length (short_description r)
            = Nat.min 100 (String.length (description r)) + 3
            /\ String.length (short_description r) <= 103
            /\ (String.length (description r) <= 100 ->
                short_description r = (description r ++ "...")%string)
            /\ (100 < String.length (description r) ->
                short_description r
                = (substring 0 100 (description r) ++ "...")%string
                /\ String.length (short_description r) = 103))
         (values (pipeline csv)).
Proof.
  rewrite pipeline_values. apply Forall_map, Forall_forall.
  intros k _.
  change (short_description (enrich k))
    with (prefix 100 (k_description k) ++ "...")%string.
  change (description (enrich k)) with (k_description k).
  unfold prefix. rewrite length_append, length_substring_0.
  change (String.length "...") with 3.
  split; [reflexivity|]. split; [lia|]. split.
  - intros H. now rewrite substring_0_all.
  - intros H. split; [reflexivity|lia].
Qed.

Lemma word_starts_bound (b : bool) (s : list ascii) :
  2 * word_starts b s <= length s + (if b then 1 else 0).
Proof.
  revert b. induction s as [|c s IH]; intros b; simpl.
  - destruct b; lia.
  - destruct (is_space c).
    + specialize (IH true). simpl in IH. destruct b; lia.
    + specialize (IH false). simpl in IH. destruct b; lia.
Qed.

Lemma word_starts_zero (s : list ascii) :
  word_starts true s = 0 <-> forallb is_space s = true.
Proof.
  induction s as [|c s IH]; simpl; [tauto|].
  destruct (is_space c); simpl; [exact IH|].
  split; [lia|discriminate].
Qed.

(** X10: [mentions] is 0 exactly for a description made of white space only
    (the empty one included), and a description of [n] characters has at
    most [(n+1)/2] words. *)
Theorem mentions_bounds (csv : list csv_row) :
  Forall (fun r : row =>
            (mentions r = 0%Z
             <-> forallb is_space (chars (description r)) = true)
            /\ (0 <= mentions r)%Z
            /\ (2 * mentions r
                <= Z.of_nat (length (chars (description r))) + 1)%Z)
         (values (pipeline csv)).
Proof.
  rewrite pipeline_values. apply Forall_map, Forall_forall.
  intros k _.
  change (mentions (enrich k))
    with (Z.of_nat (length (split (k_description k)))).
  change (description (enrich k)) with (k_description k).
  rewrite split_length. unfold word_count.
  pose proof (word_starts_bound true (chars (k_description k))) as Hb.
  simpl in Hb. rewrite <- word_starts_zero.
  repeat split; lia.
Qed.

End TextFeatures.

(** ** More on the filter handler *)

Section FilterFacts.

Lemma isin_iff (l : list string) (x : string) : isin l x = true <-> In x l.
Proof.
  unfold isin. rewrite existsb_exists. split.
  - intros (y & Hy & E). apply String.eqb_eq in E. now subst.
  - intros H. exists x. split; [exact H|apply String.eqb_refl].
Qed.

Lemma in_filter_rows (countries : option (list string)) (lo hi : float)
      (t : DataFrame row) (p : label * row) :
  In p (filter_rows countries lo hi t) <->
  In p t /\ between lo hi (Year (snd p)) = true
  /\ (truthy countries = false
      \/ isin (selected countries) (country (snd p)) = true).
Proof.
  unfold filter_rows. cbv zeta. destruct (truthy countries).
  - rewrite !in_mask. intuition discriminate.
  - rewrite in_mask. intuition.
Qed.

(** X11: What the handler charts: a row is in the filtered frame exactly when
    it is a row of the table, with its label, whose year is a number
    within the two bounds, and whose country is one of the selected ones
    when some are selected. A row whose year is NaN is never charted. *)
Theorem filtered_rows_characterised (countries : option (list string))
        (lo hi : float) (t : DataFrame row) (i : label) (r : row) :
  In (i, r) (filter_rows countries lo hi t) <->
  In (i, r) t
  /\ PrimFloat.is_nan (Year r) = false
  /\ (lo <=? Year r)%float = true /\ (Year r <=? hi)%float = true
  /\ (countries = None \/ countries = Some []
      \/ In (country r) (selected countries)).
Proof.
  rewrite in_filter_rows. simpl. unfold between.
  rewrite andb_true_iff, isin_iff. split.
  - intros (Hin & [H1 H2] & Hc). split; [exact Hin|].
    split; [apply (float_leb_not_nan _ _ H1)|].
    repeat split; try assumption.
    destruct countries as [[|c cs]|]; simpl in *; auto.
    destruct Hc as [Hc|Hc]; [discriminate|auto].
  - intros (Hin & _ & H1 & H2 & Hc). repeat split; try assumption.
    destruct countries as [[|c cs]|]; simpl in *; auto.
    destruct Hc as [Hc|[Hc|Hc]]; try discriminate; auto.
Qed.

(** X12: Narrowing the range of years can only remove rows. *)
Theorem narrower_range_selects_fewer (countries : option (list string))
        (lo hi lo' hi' : float) (t : DataFrame row) :
  (lo <=? lo')%float = true -> (hi' <=? hi)%float = true ->
  incl (filter_rows countries lo' hi' t) (filter_rows countries lo hi t).
Proof.
  intros Hlo Hhi p. rewrite !in_filter_rows. unfold between.
  rewrite !andb_true_iff. intros (Hin & [H1 H2] & Hc).
  repeat split; try assumption.
  - exact (float_leb_trans _ _ _ Hlo H1).
  - exact (float_leb_trans _ _ _ H2 Hhi).
Qed.

(** X13: A range whose minimum is not below or equal to its maximum (the
    bounds in the wrong order, or one of them NaN) selects nothing. *)
Theorem inverted_range_selects_nothing (countries : option (list string))
        (lo hi : float) (t : DataFrame row) :
  (lo <=? hi)%float = false -> filter_rows countries lo hi t = [].
Proof.
  intros H. destruct (filter_rows countries lo hi t) as [|p l] eqn:E;
    [reflexivity|].
  assert (Hp : In p (filter_rows countries lo hi t)) by (rewrite E; now left).
  apply in_filter_rows in Hp as (_ & Hb & _).
  unfold between in Hb. apply andb_true_iff in Hb as [H1 H2].
  rewrite (float_leb_trans _ _ _ H1 H2) in H. discriminate.
Qed.

(** X14: Adding countries to a selection that is not empty can only add rows. *)
Theorem larger_selection_selects_more (c : string) (cs more : list string)
        (lo hi : float) (t : DataFrame row) :
  incl (filter_rows (Some (c :: cs)) lo hi t)
       (filter_rows (Some (c :: cs ++ more)) lo hi t).
Proof.
  intros p. rewrite !in_filter_rows. simpl selected.
  intros (Hin & Hb & [Hc|Hc]); [discriminate|].
  repeat split; try assumption. right.
  apply isin_iff. apply isin_iff in Hc.
  change (c :: cs ++ more) with ((c :: cs) ++ more).
  apply in_or_app. now left.
Qed.

End FilterFacts.

Section ChartFacts.
Context {L : Libs}.

Lemma observations_tally (y : float) (g : list (float * Z)) :
  observations (tally y g) = (observations g + 1)%Z.
Proof.
  unfold observations.
  induction g as [|[k n] g IH]; cbn [tally fold_right map snd]; [lia|].
  destruct (y =? k)%float; cbn [fold_right map snd]; [lia|].
  destruct (y <? k)%float; cbn [fold_right map snd]; [lia|].
  rewrite IH. lia.
Qed.

Lemma observations_groupby_size (ys : list float) :
  observations (groupby_size ys)
  = Z.of_nat (length (filter (fun y => negb (PrimFloat.is_nan y)) ys)).
Proof.
  unfold groupby_size.
  assert (H : forall g,
             observations
               (fold_left (fun g y => if PrimFloat.is_nan y then g else tally y g)
                          ys g)
             = (observations g
                + Z.of_nat (length (filter (fun y => negb (PrimFloat.is_nan y)) ys)))%Z).
  { induction ys as [|y ys IH]; intros g; simpl; [lia|].
    rewrite IH. destruct (PrimFloat.is_nan y); simpl;
      [lia|rewrite observations_tally; lia]. }
  rewrite H. reflexivity.
Qed.

(** X17: The yearly trend counts every charted row once: the observations of
    the trend figure add up to the number of rows of the filtered frame,
    which is also the number of points of each of the other figures. *)
Theorem trend_counts_add_up (countries : option (list string))
        (lo hi : float) (t : DataFrame row) :
  let dff := filter_rows countries lo hi t in
  observations (trend_fig (charts dff)) = Z.of_nat (length dff)
  /\ length (geo_fig (charts dff)) = length dff
  /\ length (hyper_fig (charts dff)) = length dff
  /\ length (battle_fig (charts dff)) = length dff.
Proof.
  cbv zeta. set (dff := filter_rows countries lo hi t).
  assert (Hnan : forall p, In p dff -> PrimFloat.is_nan (Year (snd p)) = false).
  { intros p Hp. apply in_filter_rows in Hp as (_ & Hb & _).
    unfold between in Hb. apply andb_true_iff in Hb as [H1 _].
    apply (float_leb_not_nan _ _ H1). }
  split.
  - simpl. rewrite observations_groupby_size. f_equal.
    unfold values. rewrite map_map.
    clearbody dff. induction dff as [|p dff IH]; [reflexivity|].
    simpl. rewrite (Hnan p) by now left. simpl. f_equal.
    apply IH. intros q Hq. apply Hnan. now right.
  - simpl. unfold values. now rewrite !length_map.
Qed.

End ChartFacts.

(** ** The yearly trend *)

Section TrendFacts.
Context {L : Libs}.

Lemma tally_hd (y : float) (g : list (float * Z)) (p : float * Z) :
  HdRel year_before p g -> year_before p (y, 1%Z) ->
  HdRel year_before p (tally y g).
Proof.
  intros Hg Hy. destruct g as [|[k n] g]; simpl; [now constructor|].
  inversion Hg as [|? ? Hk]; subst.
  destruct (y =? k)%float; [now constructor|].
  destruct (y <? k)%float; now constructor.
Qed.

Lemma tally_sorted (y : float) (g : list (float * Z)) :
  PrimFloat.is_nan y = false ->
  Sorted year_before g -> Forall group_ok g ->
  Sorted year_before (tally y g) /\ Forall group_ok (tally y g).
Proof.
  intros Hy. induction g as [|[k n] g IH]; simpl; intros Hs Hok.
  - split; repeat constructor; [exact Hy|simpl; lia].
  - inversion Hs as [|? ? Hs' Hhd]; subst.
    inversion Hok as [|? ? [Hk Hn] Hok']; subst. simpl in Hk, Hn.
    destruct (y =? k)%float eqn:Heq.
    + split.
      * constructor; [exact Hs'|].
        destruct Hhd; constructor. assumption.
      * constructor; [split; simpl; [exact Hk|lia]|exact Hok'].
    + destruct (y <? k)%float eqn:Hlt.
      * split.
        -- constructor; [exact Hs|]. constructor. exact Hlt.
        -- constructor; [split; simpl; [exact Hy|lia]|exact Hok].
      * destruct (IH Hs' Hok') as [IHs IHok]. split.
        -- constructor; [exact IHs|]. apply tally_hd; [exact Hhd|].
           unfold year_before. simpl.
           now apply float_trichotomy.
        -- constructor; [split; assumption|exact IHok].
Qed.

Lemma groupby_size_sorted (ys : list float) :
  Sorted year_before (groupby_size ys) /\ Forall group_ok (groupby_size ys).
Proof.
  unfold groupby_size.
  assert (H : forall g, Sorted year_before g -> Forall group_ok g ->
             let g' := fold_left
                         (fun g y => if PrimFloat.is_nan y then g else tally y g)
                         ys g in
             Sorted year_before g' /\ Forall group_ok g').
  { induction ys as [|y ys IH]; intros g Hs Hok; simpl; [auto|].
    destruct (PrimFloat.is_nan y) eqn:Hy; [now apply IH|].
    destruct (tally_sorted y g Hy Hs Hok). now apply IH. }
  apply H; constructor.
Qed.

(** X18: The yearly trend has its years in strictly increasing order, each
    once, none of them NaN, and each with at least one observation. *)
Theorem trend_years_increasing (dff : DataFrame row) :
  Sorted (fun a b : float * Z => (fst a <? fst b)%float = true)
         (trend_fig (charts dff))
  /\ Forall (fun p : float * Z =>
               PrimFloat.is_nan (fst p) = false /\ (1 <= snd p)%Z)
            (trend_fig (charts dff)).
Proof. apply groupby_size_sorted. Qed.

Lemma tally_keys_keep (y k : float) (g : list (float * Z)) :
  In k (map fst g) -> In k (map fst (tally y g)).
Proof.
  induction g as [|[k' n] g IH]; simpl; [contradiction|].
  destruct (y =? k')%float; simpl; [auto|].
  destruct (y <? k')%float; simpl; intuition.
Qed.

Lemma tally_keys_incl (y k : float) (g : list (float * Z)) :
  In k (map fst (tally y g)) -> k = y \/ In k (map fst g).
Proof.
  induction g as [|[k' n] g IH]; simpl; [intuition|].
  destruct (y =? k')%float; simpl; [auto|].
  destruct (y <? k')%float; simpl; intuition.
Qed.

Lemma tally_has (y : float) (g : list (float * Z)) :
  PrimFloat.is_nan y = false ->
  exists k, In k (map fst (tally y g)) /\ (y =? k)%float = true.
Proof.
  intros Hy.
  assert (Hyy : (y =? y)%float = true).
  { unfold PrimFloat.is_nan in Hy. now destruct (y =? y)%float. }
  induction g as [|[k' n] g IH]; simpl.
  - exists y. auto.
  - destruct (y =? k')%float eqn:E; simpl; [exists k'; auto|].
    destruct (y <? k')%float; simpl; [exists y; auto|].
    destruct IH as (k & Hk & Ek). exists k. auto.
Qed.

Lemma groupby_size_keys (ys : list float) :
  (forall k, In k (map fst (groupby_size ys)) -> In k ys)
  /\ (forall y, In y ys -> PrimFloat.is_nan y = false ->
        exists k, In k (map fst (groupby_size ys)) /\ (y =? k)%float = true).
Proof.
  unfold groupby_size.
  set (step := fun (g : list (float * Z)) y =>
                 if PrimFloat.is_nan y then g else tally y g).
  assert (Hkeep : forall l g k, In k (map fst g) ->
                                In k (map fst (fold_left step l g))).
  { induction l as [|y l IH]; intros g k Hk; simpl; [exact Hk|].
    apply IH. unfold step. destruct (PrimFloat.is_nan y); [exact Hk|].
    now apply tally_keys_keep. }
  split.
  - assert (H : forall l g k, In k (map fst (fold_left step l g)) ->
                              In k (map fst g) \/ In k l).
    { induction l as [|y l IH]; intros g k Hk; simpl in *; [auto|].
      apply IH in Hk as [Hk|Hk]; [|auto].
      unfold step in Hk. destruct (PrimFloat.is_nan y); [auto|].
      apply tally_keys_incl in Hk as [->|Hk]; auto. }
    intros k Hk. apply H in Hk as [[]|Hk]. exact Hk.
  - assert (H : forall l g y, In y l -> PrimFloat.is_nan y = false ->
                exists k, In k (map fst (fold_left step l g))
                          /\ (y =? k)%float = true).
    { induction l as [|x l IH]; intros g y Hin Hy; simpl in *; [contradiction|].
      destruct Hin as [->|Hin]; [|now apply IH].
      unfold step at 2. rewrite Hy.
      destruct (tally_has y g Hy) as (k & Hk & Ek).
      exists k. split; [now apply Hkeep|exact Ek]. }
    intros y. apply H.
Qed.

(** X19: Every row of the filtered frame has its year on the trend line, and
    the trend line has no other years than those of its rows. *)
Theorem trend_years_are_the_rows_years (countries : option (list string))
        (lo hi : float) (t : DataFrame row) :
  let dff := filter_rows countries lo hi t in
  (forall i r, In (i, r) dff ->
      exists k n, In (k, n) (trend_fig (charts dff))
                  /\ (Year r =? k)%float = true)
  /\ (forall k n, In (k, n) (trend_fig (charts dff)) ->
        exists i r, In (i, r) dff /\ Year r = k).
Proof.
  cbv zeta. set (dff := filter_rows countries lo hi t).
  destruct (groupby_size_keys
              (map (fun r : row => Year r) (values dff))) as [Hincl Hhas].
  split.
  - intros i r Hin.
    assert (Hnan : PrimFloat.is_nan (Year r) = false).
    { apply in_filter_rows in Hin as (_ & Hb & _).
      unfold between in Hb. apply andb_true_iff in Hb as [H1 _].
      apply (float_leb_not_nan _ _ H1). }
    destruct (Hhas (Year r)) as (k & Hk & Ek); [|exact Hnan|].
    + apply in_map_iff. exists r. split; [reflexivity|].
      unfold values. apply in_map_iff. now exists (i, r).
    + apply in_map_iff in Hk as ([k' n] & E & Hk). simpl in E. subst k'.
      exists k, n. auto.
  - intros k n Hin.
    assert (Hk : In k (map fst (trend_fig (charts dff)))).
    { apply in_map_iff. now exists (k, n). }
    apply Hincl in Hk. apply in_map_iff in Hk as (r & E & Hr).
    unfold values in Hr. apply in_map_iff in Hr as ([i r'] & E' & Hr).
    simpl in E'. subst r'. exists i, r. auto.
Qed.

End TrendFacts.

(** ** Start-up and the layout *)

Section StartupFacts.
Context {L : Libs}.

Lemma fold_pick_cases (better : float -> float -> bool) (l : list float)
      (acc : float) :
  fold_left (pick better) l acc = acc \/ In (fold_left (pick better) l acc) l.
Proof.
  revert acc. induction l as [|x l IH]; intros acc; simpl; [now left|].
  destruct (IH (pick better acc x)) as [E|Hin]; [|now right; right].
  rewrite E. unfold pick.
  destruct (PrimFloat.is_nan x); [now left|].
  destruct (PrimFloat.is_nan acc); [now right; left|].
  destruct (better x acc); [now right; left|now left].
Qed.

(** X20: a process that has started has the table of the pipeline, and
    this table has a row, one of them with a finite year: the two bounds
    of the slider are read only off such a table. *)
Theorem startup_needs_a_finite_year (csv : list csv_row) (t : DataFrame row) :
  startup csv = Some t ->
  t = pipeline csv
  /\ t <> []
  /\ exists r : row, In r (values t) /\ PrimFloat.is_finite (Year r) = true.
Proof.
  unfold startup. cbv zeta.
  set (years := map (fun r : row => Year r) (values (pipeline csv))).
  destruct (PrimFloat.is_finite (series_min years)) eqn:Hmin; [|discriminate].
  simpl. destruct (PrimFloat.is_finite (series_max years)); [|discriminate].
  intros E. injection E as <-.
  assert (Hex : exists r : row, In r (values (pipeline csv))
                                /\ PrimFloat.is_finite (Year r) = true).
  { unfold series_min in Hmin.
    destruct (fold_pick_cases PrimFloat.ltb years PrimFloat.nan) as [E|Hin].
    - rewrite E in Hmin. discriminate Hmin.
    - unfold years in Hin at 2. apply in_map_iff in Hin as (r & Er & Hr).
      exists r. split; [exact Hr|]. now rewrite Er. }
  split; [reflexivity|]. split; [|exact Hex].
  destruct Hex as (r & Hr & _). intros E. rewrite E in Hr. exact Hr.
Qed.

End StartupFacts.

Section DropdownFacts.

Lemma existsb_eqb_iff (x : string) (l : list string) :
  existsb (String.eqb x) l = true <-> In x l.
Proof. apply isin_iff. Qed.

Lemma in_unique_from (seen l : list string) (x : string) :
  In x (unique_from seen l) <-> In x l /\ ~ In x seen.
Proof.
  revert seen. induction l as [|y l IH]; intros seen; simpl; [tauto|].
  destruct (existsb (String.eqb y) seen) eqn:E.
  - apply existsb_eqb_iff in E. rewrite IH. split.
    + tauto.
    + intros [[->|H] Hn]; [contradiction|tauto].
  - assert (Hy : ~ In y seen).
    { intros H. apply existsb_eqb_iff in H. congruence. }
    simpl. rewrite IH. simpl. split.
    + intros [->|[H Hn]]; [tauto|]. split; [tauto|]. intros Hs. apply Hn. now right.
    + intros [[->|H] Hn]; [now left|].
      destruct (string_dec y x) as [->|Hne]; [now left|].
      right. split; [exact H|]. intros [E'|Hs]; [congruence|contradiction].
Qed.

Lemma NoDup_unique_from (seen l : list string) : NoDup (unique_from seen l).
Proof.
  revert seen. induction l as [|y l IH]; intros seen; simpl; [constructor|].
  destruct (existsb (String.eqb y) seen); [apply IH|].
  constructor; [|apply IH].
  intros H. apply in_unique_from in H as [_ H]. apply H. now left.
Qed.

Lemma in_insert_sorted (x y : string) (l : list string) :
  In y (insert_sorted x l) <-> y = x \/ In y l.
Proof.
  induction l as [|z l IH]; simpl; [intuition|].
  destruct (String.leb x z); simpl; [intuition|].
  rewrite IH. intuition.
Qed.

Lemma in_sorted (y : string) (l : list string) : In y (sorted l) <-> In y l.
Proof.
  unfold sorted. induction l as [|x l IH]; simpl; [tauto|].
  rewrite in_insert_sorted, IH. intuition.
Qed.

Lemma leb_false_ltb (x y : string) : String.leb x y = false -> String.ltb y x = true.
Proof.
  unfold String.leb, String.ltb. rewrite (String.compare_antisym y x).
  destruct (String.compare x y); simpl; congruence.
Qed.

Lemma leb_true_ltb (x y : string) :
  String.leb x y = true -> x <> y -> String.ltb x y = true.
Proof.
  unfold String.leb, String.ltb. intros H Hne.
  destruct (String.compare x y) eqn:E; try reflexivity; try discriminate.
  apply String.compare_eq_iff in E. contradiction.
Qed.

Lemma insert_sorted_hd (x p : string) (l : list string) :
  HdRel code_point_before p l -> code_point_before p x ->
  HdRel code_point_before p (insert_sorted x l).
Proof.
  intros Hl Hx. destruct l as [|z l]; simpl; [now constructor|].
  inversion Hl; subst. destruct (String.leb x z); now constructor.
Qed.

Lemma insert_sorted_sorted (x : string) (l : list string) :
  ~ In x l -> Sorted code_point_before l ->
  Sorted code_point_before (insert_sorted x l).
Proof.
  induction l as [|z l IH]; simpl; intros Hn Hs; [repeat constructor|].
  inversion Hs as [|? ? Hs' Hhd]; subst.
  destruct (String.leb x z) eqn:E.
  - constructor; [exact Hs|]. constructor.
    apply leb_true_ltb; [exact E|]. intros ->. apply Hn. now left.
  - constructor.
    + apply IH; [|exact Hs']. intros H. apply Hn. now right.
    + apply insert_sorted_hd; [exact Hhd|]. now apply leb_false_ltb.
Qed.

Lemma sorted_sorted (l : list string) :
  NoDup l -> Sorted code_point_before (sorted l).
Proof.
  unfold sorted. induction 1 as [|x l Hx Hnd IH]; simpl; [constructor|].
  apply insert_sorted_sorted; [|exact IH].
  intros H. apply (proj1 (in_sorted x l)) in H. contradiction.
Qed.

Lemma map_pair_same (l : list string) :
  map snd (map (fun c : string => (c, c)) l) = l.
Proof. rewrite map_map. simpl. apply map_id. Qed.

(** X22: The dropdown offers the countries of the rows of the table, and only
    those, each as its own label. *)
Theorem dropdown_options_are_the_countries (t : DataFrame row)
        (lab v : string) :
  In (lab, v) (dropdown_options t) <->
  lab = v /\ exists r : row, In r (values t) /\ country r = v.
Proof.
  unfold dropdown_options. rewrite in_map_iff. split.
  - intros (c & E & Hc). injection E as <- <-. split; [reflexivity|].
    apply (proj1 (in_sorted _ _)) in Hc. unfold unique in Hc.
    apply (proj1 (in_unique_from _ _ _)) in Hc as [Hc _].
    apply in_map_iff in Hc as (r & Er & Hr). now exists r.
  - intros (-> & r & Hr & <-). exists (country r). split; [reflexivity|].
    apply (proj2 (in_sorted _ _)). unfold unique.
    apply (proj2 (in_unique_from _ _ _)). split; [|tauto].
    apply in_map_iff. now exists r.
Qed.

(** X23: The options of the dropdown come in strictly increasing order of
    their code points: no country is offered twice. *)
Theorem dropdown_options_increasing (t : DataFrame row) :
  Sorted (fun a b : string => String.ltb a b = true)
         (map snd (dropdown_options t))
  /\ NoDup (map snd (dropdown_options t)).
Proof.
  unfold dropdown_options. rewrite map_pair_same.
  pose proof (NoDup_unique_from [] (map (fun r : row => country r) (values t)))
    as Hnd.
  fold (unique (map (fun r : row => country r) (values t))) in Hnd.
  split; [now apply sorted_sorted|].
  set (u := unique _) in *. clearbody u.
  unfold sorted. induction Hnd as [|x l Hx Hnd IH]; simpl; [constructor|].
  assert (Hins : forall y s, ~ In y s -> NoDup s -> NoDup (insert_sorted y s)).
  { intros y s. induction s as [|z s IHs]; simpl; intros Hn Hs.
    - repeat constructor. tauto.
    - inversion Hs; subst. destruct (String.leb y z).
      + constructor; assumption.
      + constructor.
        * rewrite in_insert_sorted. intros [->|H]; [apply Hn; now left|contradiction].
        * apply IHs; [|assumption]. intros H. apply Hn. now right. }
  apply Hins; [|exact IH]. intros H. apply (proj1 (in_sorted x l)) in H.
  contradiction.
Qed.

End DropdownFacts.

(* ------------------------------------------------------------------ *)
(** * Further properties on concrete tables *)

Example dropdown_options_scenario :
  dropdown_options scenario_table = [("France", "France"); ("USA", "USA")].
Proof. reflexivity. Qed.

Example unique_first_appearance :
  unique ["USA"; "France"; "USA"; "Chile"; "France"] = ["USA"; "France"; "Chile"]
  /\ sorted ["USA"; "France"; "Chile"; "chile"] = ["Chile"; "France"; "USA"; "chile"].
Proof. split; reflexivity. Qed.

(** The scenario's file has a numeric column of years. *)
Lemma numeric_year_column_has_no_nan_witness :
  Forall (fun r : row => PrimFloat.is_nan (Year r) = false)
         (values scenario_table).
Proof.
  apply (@numeric_year_column_has_no_nan stub_libs [reno; paris]).
  repeat constructor; eexists; reflexivity.
Defined.



(** The range [1996, 2000] inside the range [1995, 2001]. *)
Lemma narrower_range_selects_fewer_witness :
  incl (filter_rows None 1996 2000 scenario_table)
       (filter_rows None 1995 2001 scenario_table).
Proof.
  apply (narrower_range_selects_fewer None 1995 2001 1996 2000 scenario_table);
    reflexivity.
Defined.

(** The bounds 2001 and 1995 in the wrong order. *)
Lemma inverted_range_selects_nothing_witness :
  filter_rows None 2001 1995 scenario_table = [].
Proof.
  apply (inverted_range_selects_nothing None 2001 1995 scenario_table).
  reflexivity.
Defined.

(** The scenario starts. *)
Lemma startup_needs_a_finite_year_witness :
  scenario_table <> []
  /\ exists r : row,
       In r (values scenario_table) /\ PrimFloat.is_finite (Year r) = true.
Proof.
  apply (@startup_needs_a_finite_year stub_libs [reno; paris] scenario_table).
  reflexivity.
Defined.
